(** * Franka_selenium: network readiness checker and UI command driver

    A shallow embedding of [src/utils/network_manager.py] and
    [src/utils/robot_commands.py].

    Both Python classes are sequences of calls into an outside world (the
    host OS through [subprocess.run], the browser through Selenium).  A
    computation is modelled as a function of the history of calls made so
    far: it returns its result (a value or a raised exception) together
    with the calls it made, in order.  The outside world is a record of
    oracles, one per call, each a function of the history: any
    deterministic behaviour of the OS or of the browser is an instance,
    and a concrete instance can be run.

    Logging ([self.logger.*]) has no influence on control flow or on the
    outside world and is left out, except where a log message itself
    queries the browser. *)

From Stdlib Require Import String Ascii List ZArith Bool Lia DecimalString.
Import ListNotations.
Local Open Scope string_scope.
Local Open Scope Z_scope.
Local Open Scope list_scope.

(** ** Python strings *)

Module PyStr.

(** [needle in hay] on Python strings. *)
Fixpoint str_in (needle hay : string) : bool :=
  String.prefix needle hay ||
  match hay with
  | EmptyString => false
  | String _ rest => str_in needle rest
  end.

(** [c.lower()] on the ASCII range. *)
Definition lower_ascii (c : ascii) : ascii :=
  let n := nat_of_ascii c in
  if (Nat.leb 65 n && Nat.leb n 90)%bool then ascii_of_nat (n + 32) else c.

Fixpoint lower (s : string) : string :=
  match s with
  | EmptyString => EmptyString
  | String c rest => String (lower_ascii c) (lower rest)
  end.

(** Whitespace removed by [str.strip()] (ASCII range). *)
Definition is_space (c : ascii) : bool :=
  let n := nat_of_ascii c in
  (Nat.leb 9 n && Nat.leb n 13)%bool || Nat.eqb n 32
  || (Nat.leb 28 n && Nat.leb n 31)%bool.

Fixpoint lstrip (s : string) : string :=
  match s with
  | EmptyString => EmptyString
  | String c rest => if is_space c then lstrip rest else s
  end.

Fixpoint rstrip (s : string) : string :=
  match s with
  | EmptyString => EmptyString
  | String c rest =>
      match rstrip rest with
      | EmptyString => if is_space c then EmptyString else String c EmptyString
      | r => String c r
      end
  end.

Definition strip (s : string) : string := rstrip (lstrip s).

(** [str(n)] for a Python int. *)
Definition str (n : Z) : string := NilZero.string_of_int (Z.to_int n).

End PyStr.

(** ** Exceptions *)

(** The exception classes the two source files can meet.  All of them
    derive from [Exception]; asynchronous signals ([KeyboardInterrupt],
    [SystemExit]) are outside the model, so a bare [except:] and
    [except Exception] catch the same exceptions here. *)
Inductive Exn : Type :=
| NoSuchElementException            (* selenium: element not found *)
| ElementClickInterceptedException  (* selenium: click intercepted *)
| TimeoutException                  (* selenium: WebDriverWait timed out *)
| WebDriverException                (* selenium: any other driver error *)
| TimeoutExpired                    (* subprocess: command timed out *)
| CalledProcessError                (* subprocess: other SubprocessError *)
| OSError                           (* FileNotFoundError, PermissionError *)
| OtherException.                   (* any other Exception *)

(** The classes named in [except] clauses; [C_BaseException] stands for
    a bare [except:]. *)
Inductive ExnClass : Type :=
| C_BaseException
| C_Exception
| C_TimeoutException
| C_ElementClickInterceptedException
| C_TimeoutExpired
| C_SubprocessError.

(** [isinstance(e, c)]: [TimeoutExpired] and [CalledProcessError] are the
    subclasses of [SubprocessError]. *)
Definition isinstance (e : Exn) (c : ExnClass) : bool :=
  match c, e with
  | C_BaseException, _ => true
  | C_Exception, _ => true
  | C_ElementClickInterceptedException, ElementClickInterceptedException => true
  | C_TimeoutException, TimeoutException => true
  | C_TimeoutExpired, TimeoutExpired => true
  | C_SubprocessError, TimeoutExpired => true
  | C_SubprocessError, CalledProcessError => true
  | _, _ => false
  end.

Inductive Result (A : Type) : Type :=
| Ok (a : A)
| Raise (e : Exn).
Arguments Ok {A} a.
Arguments Raise {A} e.

(** ** Computations over a history of calls *)

Section Effects.
Context {Event : Type}.

(** A computation reads the calls made before it started and returns its
    result with the calls it made itself. *)
Definition M (A : Type) : Type := list Event -> Result A * list Event.

Definition ret {A} (a : A) : M A := fun _ => (Ok a, []).

Definition bind {A B} (m : M A) (f : A -> M B) : M B :=
  fun h =>
    match m h with
    | (Ok a, evs) => let (r, evs') := f a (h ++ evs) in (r, evs ++ evs')
    | (Raise e, evs) => (Raise e, evs)
    end.

(** One call to the outside world: the oracle answers from the history,
    and the call is recorded. *)
Definition call {A} (ev : Event) (oracle : list Event -> Result A) : M A :=
  fun h => (oracle h, [ev]).

(** One [except (c1, c2, ...) as e: handler] clause. *)
Definition Clause (A : Type) : Type := (list ExnClass * (Exn -> M A))%type.

Fixpoint find_clause {A} (e : Exn) (clauses : list (Clause A))
  : option (Exn -> M A) :=
  match clauses with
  | [] => None
  | (classes, handler) :: rest =>
      if existsb (isinstance e) classes then Some handler
      else find_clause e rest
  end.

(** [try: m  except ...: ...  except ...: ...]: the first clause that
    matches the exception handles it; an unmatched exception goes on. *)
Definition try_except {A} (m : M A) (clauses : list (Clause A)) : M A :=
  fun h =>
    match m h with
    | (Ok a, evs) => (Ok a, evs)
    | (Raise e, evs) =>
        match find_clause e clauses with
        | Some handler =>
            let (r, evs') := handler e (h ++ evs) in (r, evs ++ evs')
        | None => (Raise e, evs)
        end
    end.

(** A Python [for x in xs:] loop whose body either returns from the
    enclosing function ([Some r]) or goes on to the next element
    ([None]); [after] is the code after the loop. *)
Fixpoint for_each {X R} (xs : list X) (body : X -> M (option R))
         (after : M R) : M R :=
  match xs with
  | [] => after
  | x :: rest =>
      bind (body x) (fun r =>
        match r with
        | Some v => ret v
        | None => for_each rest body after
        end)
  end.

(** The calls made by the iterations over [xs] when each of them goes
    on to the next element. *)
Fixpoint skipped_calls {X R} (body : X -> M (option R)) (xs : list X)
         (h : list Event) : list Event :=
  match xs with
  | [] => []
  | x :: rest =>
      snd (body x h) ++ skipped_calls body rest (h ++ snd (body x h))
  end.

(** Every iteration over [xs] goes on to the next element. *)
Fixpoint all_skipped {X R} (body : X -> M (option R)) (xs : list X)
         (h : list Event) : Prop :=
  match xs with
  | [] => True
  | x :: rest =>
      fst (body x h) = Ok None /\ all_skipped body rest (h ++ snd (body x h))
  end.

(** The first call a computation makes is [ev], whatever came before. *)
Definition begins_with {A} (ev : Event) (m : M A) : Prop :=
  forall h, exists rest, snd (m h) = ev :: rest.

(** A computation that returns a value, and raises nothing, from every
    history. *)
Definition returns {A} (m : M A) : Prop :=
  forall h, exists a, fst (m h) = Ok a.

(** A fixed script of steps, each reporting success or failure: the
    first failing step ends it with failure, and it succeeds after the
    last step. *)
Fixpoint run_script (steps : list (M bool)) : M bool :=
  match steps with
  | [] => ret true
  | step :: rest =>
      bind step (fun ok => if negb ok then ret false else run_script rest)
  end.

Definition result_of {A} (m : M A) (h : list Event) : Result A := fst (m h).
Definition calls_of {A} (m : M A) (h : list Event) : list Event := snd (m h).

End Effects.

Declare Scope py_scope.
Delimit Scope py_scope with py.
Notation "x <- m ;; k" := (bind m (fun x => k))
  (at level 61, m at next level, right associativity) : py_scope.
Notation "m ;; k" := (bind m (fun _ => k))
  (at level 61, right associativity) : py_scope.
Local Open Scope py_scope.

(** * Network readiness checker ([src/utils/network_manager.py]) *)

Module NetworkManager.

(** [utils.config.Config]: the fields the class reads. *)
Record Config : Type := {
  network_interface : string;
  local_ip : string;
  network_assignment : string;
  robot_ip : string
}.

(** The [CompletedProcess] returned by [subprocess.run]. *)
Record CompletedProcess : Type := {
  returncode : Z;
  stdout : string;
  stderr : string
}.

(** [subprocess.run(argv, capture_output=True, timeout=timeout)];
    the timeout is in seconds. *)
Inductive Event : Type :=
| EvRun (argv : list string) (timeout : Z).

Definition History : Type := list Event.

(** The host: what [subprocess.run] does, given the commands run before.
    It returns a [CompletedProcess], or raises [TimeoutExpired] when the
    timeout elapses, or [OSError] when the program cannot be started. *)
Record Host : Type := {
  subprocess_run : History -> list string -> Z -> Result CompletedProcess
}.

Section Manager.
Variable config : Config.
Variable host : Host.

Definition run (argv : list string) (timeout : Z) : M CompletedProcess :=
  call (EvRun argv timeout) (fun h => subprocess_run host h argv timeout).

Definition check_argv : list string :=
  ["ip"; "addr"; "show"; network_interface config].

Definition add_argv : list string :=
  ["sudo"; "ip"; "addr"; "add"; network_assignment config;
   "dev"; network_interface config].

Definition ping_argv : list string :=
  ["ping"; "-c"; "2"; "-W"; "3"; robot_ip config].

Definition check_network_configured : M bool :=
  try_except
    (result <- run check_argv 5 ;;
     if returncode result =? 0
     then ret (PyStr.str_in (local_ip config) (stdout result))
     else ret false)
    [([C_TimeoutExpired; C_SubprocessError], fun _ => ret false)].

Definition configure_network : M bool :=
  configured <- check_network_configured ;;
  if configured then ret true
  else
    try_except
      (result <- run add_argv 10 ;;
       if returncode result =? 0 then ret true else ret false)
      [([C_TimeoutExpired], fun _ => ret false);
       ([C_Exception], fun _ => ret false)].

Definition test_robot_connectivity : M bool :=
  try_except
    (result <- run ping_argv 10 ;;
     if returncode result =? 0 then ret true else ret false)
    [([C_TimeoutExpired], fun _ => ret false);
     ([C_Exception], fun _ => ret false)].

(** The privileged address-add command, as an event. *)
Definition is_add_command (ev : Event) : bool :=
  match ev with
  | EvRun ("sudo" :: "ip" :: "addr" :: "add" :: _) _ => true
  | _ => false
  end.

End Manager.

(** The public methods of [NetworkManager]. *)
Inductive Operation : Type :=
| Op_check_network_configured
| Op_configure_network
| Op_test_robot_connectivity.

Definition invoke (config : Config) (host : Host) (op : Operation) : M bool :=
  match op with
  | Op_check_network_configured => check_network_configured config host
  | Op_configure_network => configure_network config host
  | Op_test_robot_connectivity => test_robot_connectivity config host
  end.

(** Two calls of [configure_network] in a row. *)
Definition configure_twice (config : Config) (host : Host) : M (bool * bool) :=
  first <- configure_network config host ;;
  second <- configure_network config host ;;
  ret (first, second).

End NetworkManager.

(** * UI command driver ([src/utils/robot_commands.py]) *)

Module RobotCommands.

(** [selenium.webdriver.common.by.By], the strategies the source uses. *)
Inductive By : Type := XPATH | CSS_SELECTOR | TAG_NAME.

Definition Locator : Type := (By * string)%type.

(** A [WebElement] handle. *)
Definition Element : Type := nat.

(** A [WebElement] defines neither [__bool__] nor [__len__]: it is
    always truthy. *)
Definition truthy (e : Element) : bool := true.

(** [selenium.webdriver.common.keys.Keys]. *)
Inductive Key : Type := CONTROL | ENTER.

(** The steps queued on an [ActionChains] object. *)
Inductive Action : Type :=
| key_down (k : Key)
| key_up (k : Key)
| send_keys (text : string)
| send_key (k : Key).

(** The calls made to the browser session; timeouts and sleeps are in
    milliseconds. *)
Inductive Event : Type :=
| EvFindElement (l : Locator)                   (* driver.find_element *)
| EvWaitPresence (l : Locator) (timeout : Z)    (* WebDriverWait.until(presence) *)
| EvWaitClickable (l : Locator) (timeout : Z)   (* WebDriverWait.until(clickable) *)
| EvElemFindElement (e : Element) (l : Locator) (* element.find_element *)
| EvElemFindElements (e : Element) (l : Locator)
| EvClick (e : Element)
| EvText (e : Element)
| EvGetAttribute (e : Element) (name : string)
| EvIsDisplayed (e : Element)
| EvIsEnabled (e : Element)
| EvExecuteScript (script : string) (e : Element)
| EvPerform (actions : list Action)             (* ActionChains.perform *)
| EvSleep (ms : Z).                             (* time.sleep *)

Definition History : Type := list Event.

(** The browser session: the answer to each call, given the calls made
    before. *)
Record Browser : Type := {
  find_element : History -> Locator -> Result Element;
  wait_presence : History -> Locator -> Z -> Result Element;
  wait_clickable : History -> Locator -> Z -> Result Element;
  elem_find_element : History -> Element -> Locator -> Result Element;
  elem_find_elements : History -> Element -> Locator -> Result (list Element);
  click : History -> Element -> Result unit;
  text : History -> Element -> Result string;
  get_attribute : History -> Element -> string -> Result (option string);
  is_displayed : History -> Element -> Result bool;
  is_enabled : History -> Element -> Result bool;
  execute_script : History -> string -> Element -> Result unit;
  perform : History -> list Action -> Result unit
}.

(** [robot_interface.selenium]: the session helper whose class is not
    among the sources.  Its two methods are computations over the same
    browser session. *)
Record SeleniumHelper : Type := {
  try_multiple_locators : list Locator -> Z -> M (Event := Event) (option Element);
  click_element_robust : Element -> M (Event := Event) unit
}.

Section Driver.
Variable driver : Browser.

Definition driver_find_element (l : Locator) : M Element :=
  call (EvFindElement l) (fun h => find_element driver h l).

Definition until_presence (l : Locator) (timeout : Z) : M Element :=
  call (EvWaitPresence l timeout) (fun h => wait_presence driver h l timeout).

Definition until_clickable (l : Locator) (timeout : Z) : M Element :=
  call (EvWaitClickable l timeout) (fun h => wait_clickable driver h l timeout).

Definition el_find_element (e : Element) (l : Locator) : M Element :=
  call (EvElemFindElement e l) (fun h => elem_find_element driver h e l).

Definition el_find_elements (e : Element) (l : Locator) : M (list Element) :=
  call (EvElemFindElements e l) (fun h => elem_find_elements driver h e l).

Definition el_click (e : Element) : M unit :=
  call (EvClick e) (fun h => click driver h e).

Definition el_text (e : Element) : M string :=
  call (EvText e) (fun h => text driver h e).

Definition el_get_attribute (e : Element) (name : string) : M (option string) :=
  call (EvGetAttribute e name) (fun h => get_attribute driver h e name).

Definition el_is_displayed (e : Element) : M bool :=
  call (EvIsDisplayed e) (fun h => is_displayed driver h e).

Definition el_is_enabled (e : Element) : M bool :=
  call (EvIsEnabled e) (fun h => is_enabled driver h e).

Definition driver_execute_script (script : string) (e : Element) : M unit :=
  call (EvExecuteScript script e) (fun h => execute_script driver h script e).

Definition actions_perform (actions : list Action) : M unit :=
  call (EvPerform actions) (fun h => perform driver h actions).

Definition sleep (ms : Z) : M unit :=
  call (EvSleep ms) (fun _ => Ok tt).

(** Modelled from the spec: one attempt of [try_multiple_locators],
    which is not among the sources: wait for the element to be
    present; a locator that does not resolve raises nothing and lets
    the next one be tried. *)
Definition spec_locator_attempt (timeout : Z) (locator : Locator)
  : M (option (option Element)) :=
  try_except
    (element <- until_presence locator timeout ;; ret (Some (Some element)))
    [([C_BaseException], fun _ => ret None)].

(** Modelled from the spec: [try_multiple_locators] of the session
    helper, which is not among the sources.  "Given an ordered list of
    candidate locators and a timeout budget, attempt each locator in
    turn; return the first element that becomes present within the
    timeout; if none resolve, return not found (no exception)."  Time
    is not modelled: every attempt is a wait with the given timeout. *)
Definition spec_try_multiple_locators (locators : list Locator) (timeout : Z)
  : M (option Element) :=
  for_each locators (spec_locator_attempt timeout) (ret None).

(** Modelled from the spec: [click_element_robust] of the session
    helper, which is not among the sources.  "Try direct click; if
    intercepted, fall back to a programmatic click." *)
Definition spec_click_element_robust (element : Element) : M unit :=
  try_except
    (el_click element)
    [([C_ElementClickInterceptedException],
      fun _ => driver_execute_script "arguments[0].click();" element)].

(** The calls made by attempting the locators [ls] in order. *)
Definition attempts (timeout : Z) (ls : list Locator) : list Event :=
  map (fun l => EvWaitPresence l timeout) ls.

(** Each locator of [ls], attempted in order from history [h], fails
    to resolve. *)
Fixpoint unresolved (timeout : Z) (ls : list Locator) (h : History) : Prop :=
  match ls with
  | [] => True
  | l :: rest =>
      (exists e, wait_presence driver h l timeout = Raise e) /\
      unresolved timeout rest (h ++ [EvWaitPresence l timeout])
  end.

Definition spec_helper : SeleniumHelper :=
  {| try_multiple_locators := spec_try_multiple_locators;
     click_element_robust := spec_click_element_robust |}.

End Driver.

(** ** The class [FrankaRobotCommands] *)

Section Commands.
Variable driver : Browser.
Variable selenium : SeleniumHelper.

Definition wait_for_element (locator : Locator) (timeout : Z)
  : M (option Element) :=
  try_except
    (element <- until_presence driver locator timeout ;; ret (Some element))
    [([C_BaseException], fun _ => ret None)].

Definition wait_for_clickable_element (locator : Locator) (timeout : Z)
  : M (option Element) :=
  try_except
    (element <- until_clickable driver locator timeout ;; ret (Some element))
    [([C_BaseException], fun _ => ret None)].

(** *** Task selection *)

Definition task_container_locators : list Locator :=
  [(XPATH, "/html/body/div[2]/section/section/one-library/div/div[1]/div[2]");
   (CSS_SELECTOR, "one-library div[class*='div'][class*='div'] div[class*='div']")].

Definition task_locators (task_name : string) : list Locator :=
  [(XPATH, (".//span[text()='" ++ task_name ++ "']")%string);
   (XPATH, (".//*[contains(text(), '" ++ task_name ++ "')]")%string)].

(** The body of the loop over the task locators: [Some true] is
    [return True], [None] goes on to the next locator. *)
Definition select_task_attempt (task_container : Element) (locator : Locator)
  : M (option bool) :=
  try_except
    (task_element <- el_find_element driver task_container locator ;;
     if truthy task_element
     then click_element_robust selenium task_element ;; ret (Some true)
     else ret None)
    [([C_BaseException], fun _ => ret None)].

(** [for locator in locators: ...] followed by [return False]. *)
Definition select_task_loop (task_container : Element) (locators : list Locator)
  : M bool :=
  for_each locators (select_task_attempt task_container) (ret false).

Definition select_task_from_list (task_name : string) : M bool :=
  task_container <- try_multiple_locators selenium task_container_locators 5000 ;;
  match task_container with
  | None => ret false
  | Some container => select_task_loop container (task_locators task_name)
  end.

(** *** Task execution *)

Definition execution_locators : list Locator :=
  [(CSS_SELECTOR, "body > div:nth-child(2) > section > one-sidebar > div.sidebar-body > div > div.fixed-sections > footer > section > div > div");
   (XPATH, "/html/body/div[2]/section/one-sidebar/div[1]/div/div[2]/footer/section/div/div");
   (CSS_SELECTOR, "one-sidebar footer section div div")].

Definition click_execution_button : M bool :=
  execution_button <- try_multiple_locators selenium execution_locators 5000 ;;
  match execution_button with
  | Some button => click_element_robust selenium button ;; ret true
  | None => ret false
  end.

Definition confirm_locators : list Locator :=
  [(XPATH, "/html/body/div[3]/div[3]/div/div[2]/div[3]/div[2]/span/button");
   (XPATH, "//button[contains(., 'CONFIRM')]")].

Definition click_confirm_button : M bool :=
  confirm_button <- try_multiple_locators selenium confirm_locators 10000 ;;
  match confirm_button with
  | Some button => click_element_robust selenium button ;; ret true
  | None => ret false
  end.

Definition ready_locator : Locator :=
  (XPATH, "//*[contains(text(), 'Ready')]").

(** [None] is the Python [None] of a path that ends without a
    [return]. *)
Definition wait_for_ready : M (option bool) :=
  try_except
    (ready_element <- until_presence driver ready_locator 30000 ;;
     if truthy ready_element then ret (Some true) else ret None)
    [([C_TimeoutException], fun _ => ret (Some false))].

(** *** Task configuration *)

Definition icon_locators : list Locator :=
  [(CSS_SELECTOR, ".drag-area");
   (XPATH, "//div[@class='drag-area']");
   (XPATH, "//one-timeline-skill//div[contains(@class, 'drag-area')]");
   (XPATH, "//svg/use[@xlink:href*='gripper']/../..");
   (XPATH, "//svg/use[contains(@xlink:href, 'logo.svg')]/../..");
   (XPATH, "//use[@xlink:href='bundles/gripper_grasp/logo.svg#icon']/../..");
   (XPATH, "//use[@xlink:href*='gripper']/../..")].

Definition click_task_icon_for_config : M bool :=
  icon_element <- try_multiple_locators selenium icon_locators 5000 ;;
  match icon_element with
  | Some icon => click_element_robust selenium icon ;; ret true
  | None => ret false
  end.

Definition container_xpath : string :=
  "/html/body/div[2]/section/section/section/one-timeline/div[3]/div/one-container/div/one-timeline-skill/div/one-context-menu/div/div[4]/div[1]".

(** The body of the loop over the buttons of the container.  The two
    log messages that query the button are kept as calls. *)
Definition continue_attempt (button : Element) : M (option bool) :=
  try_except
    (raw_text <- el_text driver button ;;
     let button_text := PyStr.lower (PyStr.strip raw_text) in
     el_is_displayed driver button ;;
     el_is_enabled driver button ;;
     if PyStr.str_in "continue" button_text then
       el_text driver button ;;
       displayed <- el_is_displayed driver button ;;
       clickable <- (if displayed then el_is_enabled driver button else ret false) ;;
       if clickable then
         try_except
           (el_click driver button ;; ret (Some true))
           [([C_Exception], fun _ =>
               try_except
                 (driver_execute_script driver "arguments[0].click();" button ;;
                  ret (Some true))
                 [([C_Exception], fun _ => ret None)])]
       else
         el_is_displayed driver button ;;
         el_is_enabled driver button ;;
         ret None
     else ret None)
    [([C_Exception], fun _ => ret None)].

Definition click_continue_button : M bool :=
  try_except
    (container <- wait_for_element (XPATH, container_xpath) 10000 ;;
     match container with
     | None => ret false
     | Some container =>
         buttons <- el_find_elements driver container (TAG_NAME, "button") ;;
         for_each buttons continue_attempt (ret false)
     end)
    [([C_Exception], fun _ => ret false)].

Definition speed_input_xpath : string :=
  "/html/body/div[2]/section/section/section/one-timeline/div[3]/div/one-container/div/one-timeline-skill/div/one-context-menu/div/div[3]/div[4]/div/step/linear-slider/step/div/div[4]/div[1]".

Definition force_input_xpath : string :=
  "/html/body/div[2]/section/section/section/one-timeline/div[3]/div/one-container/div/one-timeline-skill/div/one-context-menu/div/div[3]/div[7]/div/step/linear-slider/step/div/div[4]".

Definition load_input_xpath : string :=
  "/html/body/div[2]/section/section/section/one-timeline/div[3]/div/one-container/div/one-timeline-skill/div/one-context-menu/div/div[3]/div[10]/div/step/linear-slider/step/div/div[4]".

(** The key sequence queued before [actions.perform()]: Ctrl+A, the
    decimal string of the value, Enter. *)
Definition type_value (value : Z) : list Action :=
  [key_down CONTROL; send_keys "a"; key_up CONTROL;
   send_keys (PyStr.str value); send_key ENTER].

Definition set_speed_value (speed : Z) : M bool :=
  if negb ((10 <=? speed) && (speed <=? 100)) then ret false
  else
    try_except
      (speed_element <- wait_for_element (XPATH, speed_input_xpath) 15000 ;;
       match speed_element with
       | None => ret false
       | Some element =>
           try_except
             (el_click driver element ;;
              actions_perform driver (type_value speed) ;;
              ret true)
             [([C_Exception], fun _ => ret false)]
       end)
      [([C_Exception], fun _ => ret false)].

Definition set_force_value (force : Z) : M bool :=
  try_except
    (force_element <- wait_for_element (XPATH, force_input_xpath) 15000 ;;
     match force_element with
     | None => ret false
     | Some element =>
         el_click driver element ;;
         actions_perform driver (type_value force) ;;
         ret true
     end)
    [([C_Exception], fun _ => ret false)].

Definition set_load_value (load : Z) : M bool :=
  try_except
    (load_element <- wait_for_element (XPATH, load_input_xpath) 15000 ;;
     match load_element with
     | None => ret false
     | Some element =>
         el_click driver element ;;
         actions_perform driver (type_value load) ;;
         ret true
     end)
    [([C_Exception], fun _ => ret false)].

(** *** Completion poll *)

Definition poll_button_locators : list Locator :=
  [(CSS_SELECTOR, "body > div:nth-child(2) > section > one-sidebar > div.sidebar-body > div > div.fixed-sections > footer > section > div > div");
   (XPATH, "/html/body/div[2]/section/one-sidebar/div[1]/div/div[2]/footer/section/div/div")].

(** [x or ""] on the result of [get_attribute]. *)
Definition or_empty (x : option string) : string :=
  match x with
  | Some s => s
  | None => ""
  end.

(** The inner [try] of one polling iteration: [Some true] is
    [return True], [None] falls through to the sleep. *)
Definition poll_once : M (option bool) :=
  try_except
    (driver_find_element driver ready_locator ;;
     execution_button <- try_multiple_locators selenium poll_button_locators 500 ;;
     match execution_button with
     | Some button =>
         class_attr <- el_get_attribute driver button "class" ;;
         let button_classes := or_empty class_attr in
         raw_text <- el_text driver button ;;
         let button_text := PyStr.lower raw_text in
         if negb (PyStr.str_in "stop" button_classes)
            && negb (PyStr.str_in "stop" button_text)
         then ret (Some true)
         else ret None
     | None => ret None
     end)
    [([C_BaseException], fun _ => ret None)].

(** One iteration of [for i in range(timeout * 2)]. *)
Definition poll_iteration (i : nat) : M (option bool) :=
  done <- poll_once ;;
  match done with
  | Some b => ret (Some b)
  | None => sleep 500 ;; ret None
  end.

(** What a polling iteration started at history [h] observes when the
    task is complete: the Ready text is found, the execution button
    resolves, and neither its class attribute nor its text, put in
    lower case, contains "stop". *)
Definition observes_idle (h : History) : Prop :=
  exists ready button evs class_attr raw_text,
    find_element driver h ready_locator = Ok ready /\
    try_multiple_locators selenium poll_button_locators 500
      (h ++ [EvFindElement ready_locator]) = (Ok (Some button), evs) /\
    get_attribute driver (h ++ EvFindElement ready_locator :: evs) button "class"
      = Ok class_attr /\
    text driver
      (h ++ EvFindElement ready_locator :: evs ++ [EvGetAttribute button "class"])
      button = Ok raw_text /\
    PyStr.str_in "stop" (or_empty class_attr) = false /\
    PyStr.str_in "stop" (PyStr.lower raw_text) = false.

(** The same observation with the text taken as it is shown: "the
    class attribute and the visible text both lack the substring
    stop". *)
Definition observes_idle_as_shown (h : History) : Prop :=
  exists ready button evs class_attr raw_text,
    find_element driver h ready_locator = Ok ready /\
    try_multiple_locators selenium poll_button_locators 500
      (h ++ [EvFindElement ready_locator]) = (Ok (Some button), evs) /\
    get_attribute driver (h ++ EvFindElement ready_locator :: evs) button "class"
      = Ok class_attr /\
    text driver
      (h ++ EvFindElement ready_locator :: evs ++ [EvGetAttribute button "class"])
      button = Ok raw_text /\
    PyStr.str_in "stop" (or_empty class_attr) = false /\
    PyStr.str_in "stop" raw_text = false.

(** The calls of [k] polling iterations in a row that each end in the
    half-second sleep, started at history [h]. *)
Fixpoint poll_calls (k : nat) (h : History) : list Event :=
  match k with
  | O => []
  | S k' =>
      let evs := calls_of poll_once h ++ [EvSleep 500] in
      evs ++ poll_calls k' (h ++ evs)
  end.

(** The history at the start of iteration [k] (counted from 0). *)
Definition poll_history (k : nat) (h : History) : History :=
  h ++ poll_calls k h.

(** [range(n)] for an int [n]. *)
Definition range (n : Z) : list nat := seq 0 (Z.to_nat n).

(** [timeout] is in seconds and defaults to 30. *)
Definition wait_for_task_completion (timeout : Z) : M bool :=
  try_except
    (for_each (range (timeout * 2)) poll_iteration (ret false))
    [([C_Exception], fun _ => ret false)].

(** *** High-level gripper commands *)

(** [speed] defaults to 20. *)
Definition configure_gripper_open (speed : Z) : M bool :=
  try_except
    (wait_for_task_completion 10 ;;
     selected <- select_task_from_list "Gripper_open" ;;
     if negb selected then ret false else
     opened <- click_task_icon_for_config ;;
     if negb opened then ret false else
     advanced <- click_continue_button ;;
     if negb advanced then ret false else
     speed_set <- set_speed_value speed ;;
     if negb speed_set then ret false else
     closed <- click_continue_button ;;
     if negb closed then ret false else
     ret true)
    [([C_Exception], fun _ => ret false)].

(** The part of [configure_gripper_close] after the validation. *)
Definition configure_gripper_close_steps (speed force load : Z) : M bool :=
  try_except
    (wait_for_task_completion 10 ;;
     selected <- select_task_from_list "Gripper_close" ;;
     if negb selected then ret false else
     opened <- click_task_icon_for_config ;;
     if negb opened then ret false else
     skipped <- click_continue_button ;;
     if negb skipped then ret false else
     speed_set <- set_speed_value speed ;;
     if negb speed_set then ret false else
     advanced <- click_continue_button ;;
     if negb advanced then ret false else
     force_set <- set_force_value force ;;
     if negb force_set then ret false else
     advanced <- click_continue_button ;;
     if negb advanced then ret false else
     load_set <- set_load_value load ;;
     if negb load_set then ret false else
     closed <- click_continue_button ;;
     if negb closed then ret false else
     ret true)
    [([C_Exception], fun _ => ret false)].

(** [speed], [force] and [load] default to 50, 80 and 400. *)
Definition configure_gripper_close (speed force load : Z) : M bool :=
  if negb ((10 <=? speed) && (speed <=? 100)) then ret false else
  if negb ((20 <=? force) && (force <=? 100)) then ret false else
  if negb ((10 <=? load) && (load <=? 1000)) then ret false else
  configure_gripper_close_steps speed force load.

Definition gripper_open : M bool :=
  selected <- select_task_from_list "Gripper_open" ;;
  if negb selected then ret false else
  started <- click_execution_button ;;
  if negb started then ret false else
  confirmed <- click_confirm_button ;;
  if negb confirmed then ret false else
  completed <- wait_for_task_completion 30 ;;
  if negb completed then ret false else
  ret true.

Definition gripper_close : M bool :=
  wait_for_task_completion 10 ;;
  selected <- select_task_from_list "Gripper_close" ;;
  if negb selected then ret false else
  started <- click_execution_button ;;
  if negb started then ret false else
  confirmed <- click_confirm_button ;;
  if negb confirmed then ret false else
  completed <- wait_for_task_completion 30 ;;
  if negb completed then ret false else
  ret true.

(** The open-gripper script in the words of the spec: "best-effort
    wait for any in-flight task to finish (ignored if it times out),
    select task, click execution trigger, click confirm, poll for
    completion, success".  The timeout of the first wait is the one
    [gripper_close] uses. *)
Definition open_gripper_as_specified : M bool :=
  wait_for_task_completion 10 ;;
  run_script [select_task_from_list "Gripper_open";
              click_execution_button;
              click_confirm_button;
              wait_for_task_completion 30].

(** *** The public methods *)

(** What a method hands back to its caller. *)
Inductive PyValue : Type :=
| PyBool (b : bool)
| PyNone
| PyElement (e : Element).

Definition is_bool (v : PyValue) : bool :=
  match v with
  | PyBool _ => true
  | _ => false
  end.

Definition of_bool (m : M (Event := Event) bool) : M PyValue :=
  b <- m ;; ret (PyBool b).

Definition of_optional_bool (m : M (Event := Event) (option bool)) : M PyValue :=
  r <- m ;;
  ret (match r with
       | Some b => PyBool b
       | None => PyNone
       end).

Definition of_optional_element (m : M (Event := Event) (option Element))
  : M PyValue :=
  r <- m ;;
  ret (match r with
       | Some e => PyElement e
       | None => PyNone
       end).

Inductive Operation : Type :=
| Op_wait_for_element (locator : Locator) (timeout : Z)
| Op_wait_for_clickable_element (locator : Locator) (timeout : Z)
| Op_select_task_from_list (task_name : string)
| Op_click_execution_button
| Op_click_confirm_button
| Op_wait_for_ready
| Op_click_task_icon_for_config
| Op_click_continue_button
| Op_set_speed_value (speed : Z)
| Op_set_force_value (force : Z)
| Op_set_load_value (load : Z)
| Op_wait_for_task_completion (timeout : Z)
| Op_configure_gripper_open (speed : Z)
| Op_configure_gripper_close (speed force load : Z)
| Op_gripper_open
| Op_gripper_close.

(** The two element lookups hand back the element or [None]. *)
Definition is_lookup (op : Operation) : bool :=
  match op with
  | Op_wait_for_element _ _ | Op_wait_for_clickable_element _ _ => true
  | _ => false
  end.

Definition invoke (op : Operation) : M PyValue :=
  match op with
  | Op_wait_for_element locator timeout =>
      of_optional_element (wait_for_element locator timeout)
  | Op_wait_for_clickable_element locator timeout =>
      of_optional_element (wait_for_clickable_element locator timeout)
  | Op_select_task_from_list task_name => of_bool (select_task_from_list task_name)
  | Op_click_execution_button => of_bool click_execution_button
  | Op_click_confirm_button => of_bool click_confirm_button
  | Op_wait_for_ready => of_optional_bool wait_for_ready
  | Op_click_task_icon_for_config => of_bool click_task_icon_for_config
  | Op_click_continue_button => of_bool click_continue_button
  | Op_set_speed_value speed => of_bool (set_speed_value speed)
  | Op_set_force_value force => of_bool (set_force_value force)
  | Op_set_load_value load => of_bool (set_load_value load)
  | Op_wait_for_task_completion timeout => of_bool (wait_for_task_completion timeout)
  | Op_configure_gripper_open speed => of_bool (configure_gripper_open speed)
  | Op_configure_gripper_close speed force load =>
      of_bool (configure_gripper_close speed force load)
  | Op_gripper_open => of_bool gripper_open
  | Op_gripper_close => of_bool gripper_close
  end.

End Commands.

End RobotCommands.

(** * Concrete hosts and browser sessions

    Small simulated worlds on which the embedding runs. *)

Module Scenarios.

(** ** Hosts *)

Definition franka_config : NetworkManager.Config :=
  {| NetworkManager.network_interface := "eth0";
     NetworkManager.local_ip := "172.16.0.1";
     NetworkManager.network_assignment := "172.16.0.1/24";
     NetworkManager.robot_ip := "172.16.0.2" |}.

(** A host whose interface already carries the address: [ip addr show]
    lists it, and [ip addr add] would fail with "File exists". *)
Definition configured_host : NetworkManager.Host :=
  {| NetworkManager.subprocess_run := fun _ argv _ =>
       match argv with
       | "ip" :: _ =>
           Ok {| NetworkManager.returncode := 0;
                 NetworkManager.stdout := "2: eth0: <UP> inet 172.16.0.1/24 scope global eth0";
                 NetworkManager.stderr := "" |}
       | _ =>
           Ok {| NetworkManager.returncode := 2;
                 NetworkManager.stdout := "";
                 NetworkManager.stderr := "RTNETLINK answers: File exists" |}
       end |}.

(** A host on which no program can be started (the [ip] tool is not
    installed): [subprocess.run] raises [FileNotFoundError]. *)
Definition host_without_ip_tool : NetworkManager.Host :=
  {| NetworkManager.subprocess_run := fun _ _ _ => Raise OSError |}.

(** A host on which every command times out. *)
Definition hanging_host : NetworkManager.Host :=
  {| NetworkManager.subprocess_run := fun _ _ _ => Raise TimeoutExpired |}.

(** ** Browser sessions *)

Import RobotCommands.

Definition by_eqb (a b : By) : bool :=
  match a, b with
  | XPATH, XPATH | CSS_SELECTOR, CSS_SELECTOR | TAG_NAME, TAG_NAME => true
  | _, _ => false
  end.

Definition locator_eqb (a b : Locator) : bool :=
  by_eqb (fst a) (fst b) && String.eqb (snd a) (snd b).

Fixpoint assoc {K V} (eqb : K -> K -> bool) (k : K) (table : list (K * V))
  : option V :=
  match table with
  | [] => None
  | (k', v) :: rest => if eqb k k' then Some v else assoc eqb k rest
  end.

Definition count_sleeps (h : History) : nat :=
  length (filter (fun ev => match ev with EvSleep _ => true | _ => false end) h).

(** A rendered page: which locators resolve, the children and buttons of
    each element, and the text and class of each element.  The execution
    button shows [busy_text] until [busy_polls] sleeps have gone by. *)
Record Page : Type := {
  present : list (Locator * Element);
  children : list (Element * list (Locator * Element));
  buttons : list (Element * list Element);
  texts : list (Element * string);
  classes : list (Element * string);
  execution_button : Element;
  busy_polls : nat;
  busy_text : string
}.

Definition lookup_present (p : Page) (l : Locator) (missing : Exn) : Result Element :=
  match assoc locator_eqb l (present p) with
  | Some e => Ok e
  | None => Raise missing
  end.

Definition browser_of (p : Page) : Browser :=
  {| find_element := fun _ l => lookup_present p l NoSuchElementException;
     wait_presence := fun _ l _ => lookup_present p l TimeoutException;
     wait_clickable := fun _ l _ => lookup_present p l TimeoutException;
     elem_find_element := fun _ e l =>
       match assoc Nat.eqb e (children p) with
       | Some table =>
           match assoc locator_eqb l table with
           | Some c => Ok c
           | None => Raise NoSuchElementException
           end
       | None => Raise NoSuchElementException
       end;
     elem_find_elements := fun _ e _ =>
       match assoc Nat.eqb e (buttons p) with
       | Some bs => Ok bs
       | None => Ok []
       end;
     click := fun _ _ => Ok tt;
     text := fun h e =>
       if Nat.eqb e (execution_button p) && Nat.ltb (count_sleeps h) (busy_polls p)
       then Ok (busy_text p)
       else Ok (match assoc Nat.eqb e (texts p) with Some s => s | None => "" end);
     get_attribute := fun _ e _ => Ok (assoc Nat.eqb e (classes p));
     is_displayed := fun _ _ => Ok true;
     is_enabled := fun _ _ => Ok true;
     execute_script := fun _ _ _ => Ok tt;
     perform := fun _ _ => Ok tt |}.

(** The vendor page as the first-listed locators expect it: element 1 is
    the Ready status text, 2 the task list, 3 the execution button, 4 the
    CONFIRM button, 5 and 6 the two task entries, 7 the task icon, 8 the
    button container with buttons 9 (Cancel) and 10 (Continue), 11 to 13
    the speed, force and load fields.  The execution button shows
    [busy_label] during the first [busy] polls and [idle_label]
    afterwards. *)
Definition desk_page (busy : nat) (busy_label idle_label : string) : Page :=
  {| present :=
       [(ready_locator, 1%nat);
        ((XPATH, "/html/body/div[2]/section/section/one-library/div/div[1]/div[2]"), 2%nat);
        ((CSS_SELECTOR, "body > div:nth-child(2) > section > one-sidebar > div.sidebar-body > div > div.fixed-sections > footer > section > div > div"), 3%nat);
        ((XPATH, "/html/body/div[3]/div[3]/div/div[2]/div[3]/div[2]/span/button"), 4%nat);
        ((CSS_SELECTOR, ".drag-area"), 7%nat);
        ((XPATH, container_xpath), 8%nat);
        ((XPATH, speed_input_xpath), 11%nat);
        ((XPATH, force_input_xpath), 12%nat);
        ((XPATH, load_input_xpath), 13%nat)];
     children :=
       [(2%nat, [((XPATH, ".//span[text()='Gripper_open']"), 5%nat);
                 ((XPATH, ".//span[text()='Gripper_close']"), 6%nat)])];
     buttons := [(8%nat, [9%nat; 10%nat])];
     texts := [(1%nat, "Ready"); (3%nat, idle_label);
               (9%nat, "Cancel"); (10%nat, " Continue ")];
     classes := [(3%nat, "execution-button")];
     execution_button := 3%nat;
     busy_polls := busy;
     busy_text := busy_label |}.

(** The page after a UI update: every first-listed locator has stopped
    matching, the task list and the execution button are found by their
    second locators and the task entries only by the contains-text
    locator. *)
Definition drifted_page : Page :=
  {| present :=
       [(ready_locator, 1%nat);
        ((CSS_SELECTOR, "one-library div[class*='div'][class*='div'] div[class*='div']"), 2%nat);
        ((XPATH, "/html/body/div[2]/section/one-sidebar/div[1]/div/div[2]/footer/section/div/div"), 3%nat);
        ((XPATH, "//button[contains(., 'CONFIRM')]"), 4%nat)];
     children :=
       [(2%nat, [((XPATH, ".//*[contains(text(), 'Gripper_open')]"), 5%nat);
                 ((XPATH, ".//*[contains(text(), 'Gripper_close')]"), 6%nat)])];
     buttons := [];
     texts := [(1%nat, "Ready")];
     classes := [(3%nat, "execution-button")];
     execution_button := 3%nat;
     busy_polls := 0;
     busy_text := "" |}.

(** The page with the Ready text but without the execution button. *)
Definition page_without_button : Page :=
  {| present := [(ready_locator, 1%nat)];
     children := [];
     buttons := [];
     texts := [(1%nat, "Ready")];
     classes := [];
     execution_button := 3%nat;
     busy_polls := 0;
     busy_text := "" |}.

(** A session whose browser window is gone: every wait fails at once
    with a driver error that is not a timeout. *)
Definition lost_session : Browser :=
  {| find_element := fun _ _ => Raise WebDriverException;
     wait_presence := fun _ _ _ => Raise WebDriverException;
     wait_clickable := fun _ _ _ => Raise WebDriverException;
     elem_find_element := fun _ _ _ => Raise WebDriverException;
     elem_find_elements := fun _ _ _ => Raise WebDriverException;
     click := fun _ _ => Raise WebDriverException;
     text := fun _ _ => Raise WebDriverException;
     get_attribute := fun _ _ _ => Raise WebDriverException;
     is_displayed := fun _ _ => Raise WebDriverException;
     is_enabled := fun _ _ => Raise WebDriverException;
     execute_script := fun _ _ _ => Raise WebDriverException;
     perform := fun _ _ => Raise WebDriverException |}.

(** The sessions used below. *)
Definition desk : Browser := browser_of (desk_page 0 "" "").
Definition busy_desk : Browser := browser_of (desk_page 3 "Stop" "").
Definition stuck_desk : Browser := browser_of (desk_page 0 "" "Stop").
Definition capitals_desk : Browser := browser_of (desk_page 0 "" "STOP").
Definition drifted_desk : Browser := browser_of drifted_page.
Definition desk_without_button : Browser := browser_of page_without_button.

End Scenarios.

(** * Scripts and further sessions *)

Section Scripts.
Context {Event : Type}.

(** The calls made by the steps [steps], run in order from history
    [h]. *)
Fixpoint script_calls (steps : list (M (Event := Event) bool)) (h : list Event)
  : list Event :=
  match steps with
  | [] => []
  | step :: rest => snd (step h) ++ script_calls rest (h ++ snd (step h))
  end.

(** Each of the steps [steps], run in order from history [h], reports
    success. *)
Fixpoint all_succeed (steps : list (M (Event := Event) bool)) (h : list Event)
  : Prop :=
  match steps with
  | [] => True
  | step :: rest =>
      fst (step h) = Ok true /\ all_succeed rest (h ++ snd (step h))
  end.

End Scripts.

(** Outcomes written as functions of the answers of the browser. *)
Module Outcomes.
Import RobotCommands.


(** What a setter does once its range check, if any, is passed: wait for
    the field, click it, type the value. *)
Definition typing_outcome (driver : Browser) (xpath : string) (value : Z) (h : History)
  : Result bool * list Event :=
  let found := EvWaitPresence (XPATH, xpath) 15000 in
  match wait_presence driver h (XPATH, xpath) 15000 with
  | Raise _ => (Ok false, [found])
  | Ok element =>
      match click driver (h ++ [found]) element with
      | Raise _ => (Ok false, [found; EvClick element])
      | Ok _ =>
          (match perform driver (h ++ [found; EvClick element]) (type_value value) with
           | Ok _ => Ok true
           | Raise _ => Ok false
           end,
           [found; EvClick element; EvPerform (type_value value)])
      end
  end.

End Outcomes.

Module MoreScenarios.
Import RobotCommands Scenarios.

(** A host whose interface is up without the address; [ip addr add]
    succeeds. *)
Definition unconfigured_host : NetworkManager.Host :=
  {| NetworkManager.subprocess_run := fun _ argv _ =>
       match argv with
       | "ip" :: _ =>
           Ok {| NetworkManager.returncode := 0;
                 NetworkManager.stdout := "2: eth0: <UP> mtu 1500";
                 NetworkManager.stderr := "" |}
       | _ =>
           Ok {| NetworkManager.returncode := 0;
                 NetworkManager.stdout := "";
                 NetworkManager.stderr := "" |}
       end |}.

(** The same host when [sudo] refuses the command. *)
Definition refusing_host : NetworkManager.Host :=
  {| NetworkManager.subprocess_run := fun _ argv _ =>
       match argv with
       | "ip" :: _ =>
           Ok {| NetworkManager.returncode := 0;
                 NetworkManager.stdout := "2: eth0: <UP> mtu 1500";
                 NetworkManager.stderr := "" |}
       | _ =>
           Ok {| NetworkManager.returncode := 1;
                 NetworkManager.stdout := "";
                 NetworkManager.stderr := "sudo: a password is required" |}
       end |}.

(** A session in which clicks behave as [on_click] says. *)
Definition with_click (b : Browser) (on_click : History -> Element -> Result unit)
  : Browser :=
  {| find_element := find_element b;
     wait_presence := wait_presence b;
     wait_clickable := wait_clickable b;
     elem_find_element := elem_find_element b;
     elem_find_elements := elem_find_elements b;
     click := on_click;
     text := text b;
     get_attribute := get_attribute b;
     is_displayed := is_displayed b;
     is_enabled := is_enabled b;
     execute_script := execute_script b;
     perform := perform b |}.

(** A session in which no element is displayed. *)
Definition with_hidden_elements (b : Browser) : Browser :=
  {| find_element := find_element b;
     wait_presence := wait_presence b;
     wait_clickable := wait_clickable b;
     elem_find_element := elem_find_element b;
     elem_find_elements := elem_find_elements b;
     click := click b;
     text := text b;
     get_attribute := get_attribute b;
     is_displayed := fun _ _ => Ok false;
     is_enabled := is_enabled b;
     execute_script := execute_script b;
     perform := perform b |}.

(** A session in which key sequences fail. *)
Definition with_dead_keyboard (b : Browser) : Browser :=
  {| find_element := find_element b;
     wait_presence := wait_presence b;
     wait_clickable := wait_clickable b;
     elem_find_element := elem_find_element b;
     elem_find_elements := elem_find_elements b;
     click := click b;
     text := text b;
     get_attribute := get_attribute b;
     is_displayed := is_displayed b;
     is_enabled := is_enabled b;
     execute_script := execute_script b;
     perform := fun _ _ => Raise WebDriverException |}.

(** The vendor page with an overlay on top: every direct click is
    intercepted. *)
Definition overlaid_desk : Browser :=
  with_click desk (fun _ _ => Raise ElementClickInterceptedException).

Definition hidden_desk : Browser := with_hidden_elements desk.

Definition dead_keyboard_desk : Browser := with_dead_keyboard desk.

Definition has_click (h : History) : bool :=
  existsb (fun ev => match ev with EvClick _ => true | _ => false end) h.

(** The vendor page on which a task entry matches both of its locators
    (the span with the exact text is element 5, its enclosing row, found
    by the contains-text locator, is element 6), and on which the first
    click of the session fails with a stale element. *)
Definition nested_entry_page : Page :=
  {| present := present (desk_page 0 "" "");
     children :=
       [(2%nat, [((XPATH, ".//span[text()='Gripper_open']"), 5%nat);
                 ((XPATH, ".//*[contains(text(), 'Gripper_open')]"), 6%nat)])];
     buttons := buttons (desk_page 0 "" "");
     texts := texts (desk_page 0 "" "");
     classes := classes (desk_page 0 "" "");
     execution_button := 3%nat;
     busy_polls := 0;
     busy_text := "" |}.

Definition stale_first_click_desk : Browser :=
  with_click (browser_of nested_entry_page)
             (fun h _ => if has_click h then Ok tt else Raise WebDriverException).

(** The vendor page while no confirmation dialog comes up. *)
Definition page_without_confirm : Page :=
  {| present :=
       [(ready_locator, 1%nat);
        ((XPATH, "/html/body/div[2]/section/section/one-library/div/div[1]/div[2]"), 2%nat);
        ((CSS_SELECTOR, "one-sidebar footer section div div"), 3%nat)];
     children := children (desk_page 0 "" "");
     buttons := [];
     texts := [(1%nat, "Ready")];
     classes := [];
     execution_button := 3%nat;
     busy_polls := 0;
     busy_text := "" |}.

Definition desk_without_confirm : Browser := browser_of page_without_confirm.

(** A page that shows nothing the driver looks for. *)
Definition blank_page : Page :=
  {| present := [];
     children := [];
     buttons := [];
     texts := [];
     classes := [];
     execution_button := 3%nat;
     busy_polls := 0;
     busy_text := "" |}.

Definition blank_desk : Browser := browser_of blank_page.

End MoreScenarios.

(** * Properties *)

(** ** Python strings *)

Module PyStrFacts.
Import PyStr.

Lemma prefix_app (n rest : string) : String.prefix n (n ++ rest)%string = true.
Proof.
  induction n as [|c n IH]; simpl.
  - destruct rest; reflexivity.
  - destruct (ascii_dec c c) as [_|ne]; [exact IH | contradiction].
Qed.

Lemma prefix_split (n h : string) :
  String.prefix n h = true -> exists rest, h = (n ++ rest)%string.
Proof.
  revert h; induction n as [|c n IH]; intros h Hp.
  - exists h; reflexivity.
  - destruct h as [|c' h']; simpl in Hp; [discriminate|].
    destruct (ascii_dec c c') as [->|]; [|discriminate].
    destruct (IH _ Hp) as [rest ->]. exists rest; reflexivity.
Qed.

Lemma str_in_unfold (needle hay : string) :
  str_in needle hay =
  String.prefix needle hay ||
  match hay with
  | EmptyString => false
  | String _ rest => str_in needle rest
  end.
Proof. destruct hay; reflexivity. Qed.

(** [str_in] is the substring test. *)
Lemma str_in_spec (needle hay : string) :
  str_in needle hay = true <->
  exists before after, hay = (before ++ needle ++ after)%string.
Proof.
  split.
  - induction hay as [|c hay IH]; rewrite str_in_unfold; intro H;
      apply orb_true_iff in H as [H|H].
    + destruct (prefix_split _ _ H) as [rest E]. exists EmptyString, rest. exact E.
    + discriminate.
    + destruct (prefix_split _ _ H) as [rest E]. exists EmptyString, rest. exact E.
    + destruct (IH H) as (b & a & ->). exists (String c b), a. reflexivity.
  - intros (before & after & ->).
    induction before as [|c before IH].
    + change (EmptyString ++ needle ++ after)%string with (needle ++ after)%string.
      rewrite str_in_unfold, prefix_app. reflexivity.
    + change (String c before ++ needle ++ after)%string
        with (String c (before ++ needle ++ after)%string).
      rewrite str_in_unfold. cbv beta iota.
      rewrite IH. apply orb_true_r.
Qed.

Example lower_stop : lower "STOP" = "stop".
Proof. reflexivity. Qed.

Example str_150 : str 150 = "150".
Proof. reflexivity. Qed.

End PyStrFacts.

(** ** Computations *)

Section EffectFacts.
Context {Event : Type}.

Lemma bind_ok {A B} (m : M A) (f : A -> M B) (h : list Event) a evs r evs' :
  m h = (Ok a, evs) ->
  f a (h ++ evs) = (r, evs') ->
  bind m f h = (r, evs ++ evs').
Proof. intros Hm Hf. unfold bind. rewrite Hm, Hf. reflexivity. Qed.

Lemma bind_raise {A B} (m : M A) (f : A -> M B) (h : list Event) e evs :
  m h = (Raise e, evs) ->
  bind m f h = (Raise e, evs).
Proof. intros Hm. unfold bind. rewrite Hm. reflexivity. Qed.

Lemma for_each_return {X R} (x : X) rest (body : X -> M (option R)) after
    (h : list Event) v evs :
  body x h = (Ok (Some v), evs) ->
  for_each (x :: rest) body after h = (Ok v, evs).
Proof.
  intros Hb. simpl. unfold bind. rewrite Hb. simpl.
  rewrite app_nil_r. reflexivity.
Qed.

Lemma for_each_next {X R} (x : X) rest (body : X -> M (option R)) after (h : list Event) evs :
  body x h = (Ok None, evs) ->
  for_each (x :: rest) body after h =
  (fst (for_each rest body after (h ++ evs)),
   evs ++ snd (for_each rest body after (h ++ evs))).
Proof.
  intros Hb. simpl. unfold bind. rewrite Hb.
  destruct (for_each rest body after (h ++ evs)); reflexivity.
Qed.

(** A loop returns at the first element whose iteration returns: the
    elements before it were tried in order, the elements after it are
    not tried at all. *)
Lemma for_each_first {X R} (body : X -> M (option R)) after skipped x rest
    (h : list Event) v evs :
  all_skipped body skipped h ->
  body x (h ++ skipped_calls body skipped h) = (Ok (Some v), evs) ->
  for_each (skipped ++ x :: rest) body after h =
  (Ok v, skipped_calls body skipped h ++ evs).
Proof.
  revert h. induction skipped as [|y ys IH]; intros h Hskip Hx; simpl in *.
  - rewrite app_nil_r in Hx. unfold bind. rewrite Hx. simpl.
    rewrite app_nil_r. reflexivity.
  - destruct Hskip as [Hy Hys].
    unfold bind. destruct (body y h) as [r evy] eqn:Ey. simpl in *. subst r.
    rewrite app_assoc in Hx.
    fold (for_each (ys ++ x :: rest) body after).
    rewrite (IH _ Hys Hx). rewrite app_assoc. reflexivity.
Qed.


Lemma begins_with_call {A} (ev : Event) (oracle : list Event -> Result A) :
  begins_with ev (call ev oracle).
Proof. intros h. exists []. reflexivity. Qed.

Lemma begins_with_bind {A B} (ev : Event) (m : M A) (f : A -> M B) :
  begins_with ev m -> begins_with ev (bind m f).
Proof.
  intros Hm h. destruct (Hm h) as [rest Hrest]. unfold bind.
  destruct (m h) as [[a|e] evs]; simpl in Hrest; subst evs.
  - destruct (f a (h ++ ev :: rest)) as [r evs']. exists (rest ++ evs'). reflexivity.
  - exists rest. reflexivity.
Qed.

Lemma begins_with_try_except {A} (ev : Event) (m : M A) (clauses : list (Clause A)) :
  begins_with ev m -> begins_with ev (try_except m clauses).
Proof.
  intros Hm h. destruct (Hm h) as [rest Hrest]. unfold try_except.
  destruct (m h) as [[a|e] evs]; simpl in Hrest; subst evs.
  - exists rest. reflexivity.
  - destruct (find_clause e clauses) as [handler|].
    + destruct (handler e (h ++ ev :: rest)) as [r evs']. exists (rest ++ evs'). reflexivity.
    + exists rest. reflexivity.
Qed.

Lemma begins_with_for_each {X R} (ev : Event) (x : X) (rest : list X)
      (body : X -> M (option R)) (after : M R) :
  begins_with ev (body x) -> begins_with ev (for_each (x :: rest) body after).
Proof. intros Hb. simpl. apply begins_with_bind. exact Hb. Qed.

Lemma returns_ret {A} (a : A) : returns (Event := Event) (ret a).
Proof. intros h. exists a. reflexivity. Qed.

Lemma returns_bind {A B} (m : M (Event := Event) A) (f : A -> M B) :
  returns m -> (forall a, returns (f a)) -> returns (bind m f).
Proof.
  intros Hm Hf h. destruct (Hm h) as [a Ha]. unfold bind.
  destruct (m h) as [r evs]. simpl in Ha. subst r.
  destruct (Hf a (h ++ evs)) as [b Hb].
  destruct (f a (h ++ evs)) as [r evs']. simpl in Hb. subst r.
  exists b. reflexivity.
Qed.

(** A [try] whose clauses catch every exception, with handlers that
    return, returns. *)
Lemma returns_try_except {A} (m : M (Event := Event) A) (clauses : list (Clause A)) :
  (forall e, exists handler,
      find_clause e clauses = Some handler /\ returns (handler e)) ->
  returns (try_except m clauses).
Proof.
  intros Hc h. unfold try_except.
  destruct (m h) as [[a|e] evs].
  - exists a. reflexivity.
  - destruct (Hc e) as (handler & -> & Hh).
    destruct (Hh (h ++ evs)) as [b Hb].
    destruct (handler e (h ++ evs)) as [r evs']. simpl in Hb. subst r.
    exists b. reflexivity.
Qed.

Lemma returns_catch_Exception {A} (m : M (Event := Event) A) (a : A) :
  returns (try_except m [([C_Exception], fun _ => ret a)]).
Proof.
  apply returns_try_except. intros e. eexists. split; [reflexivity|].
  apply returns_ret.
Qed.

Lemma returns_catch_all {A} (m : M (Event := Event) A) (a : A) :
  returns (try_except m [([C_BaseException], fun _ => ret a)]).
Proof.
  apply returns_try_except. intros e. eexists. split; [reflexivity|].
  apply returns_ret.
Qed.

Lemma returns_for_each {X R} (xs : list X) (body : X -> M (Event := Event) (option R))
      (after : M R) :
  (forall x, returns (body x)) -> returns after -> returns (for_each xs body after).
Proof.
  intros Hb Ha. induction xs as [|x xs IH]; simpl; [exact Ha|].
  apply returns_bind; [apply Hb|].
  intros [v|]; [apply returns_ret | exact IH].
Qed.

Lemma returns_run_script (steps : list (M (Event := Event) bool)) :
  Forall returns steps -> returns (run_script steps).
Proof.
  induction 1 as [|step rest Hstep _ IH]; simpl; [apply returns_ret|].
  apply returns_bind; [exact Hstep|].
  intros [|]; simpl; [exact IH | apply returns_ret].
Qed.

End EffectFacts.

(** ** Network readiness checker *)

Module NetworkFacts.
Import NetworkManager Scenarios.

Section Manager.
Variable config : Config.
Variable host : Host.

Let check_event : Event := EvRun (check_argv config) 5.

(** When the inspection command completes, the check is the
    conjunction of exit code 0 and the address occurring in the
    output. *)
Lemma check_completed (h : History) (result : CompletedProcess) :
  subprocess_run host h (check_argv config) 5 = Ok result ->
  check_network_configured config host h =
  (Ok ((returncode result =? 0)
       && PyStr.str_in (local_ip config) (stdout result)), [check_event]).
Proof.
  intros Hrun.
  unfold check_network_configured, try_except, bind, run, call.
  rewrite Hrun. destruct (returncode result =? 0); reflexivity.
Qed.

(** A timeout of the inspection command is "not configured". *)
Lemma check_timeout (h : History) :
  subprocess_run host h (check_argv config) 5 = Raise TimeoutExpired ->
  check_network_configured config host h = (Ok false, [check_event]).
Proof.
  intros Hrun.
  unfold check_network_configured, try_except, bind, run, call.
  rewrite Hrun. reflexivity.
Qed.

(** An exception outside the two caught classes leaves the check. *)
Lemma check_uncaught (h : History) (e : Exn) :
  subprocess_run host h (check_argv config) 5 = Raise e ->
  isinstance e C_SubprocessError = false ->
  check_network_configured config host h = (Raise e, [check_event]).
Proof.
  intros Hrun Hnot.
  unfold check_network_configured, try_except, bind, run, call.
  rewrite Hrun.
  destruct e; try discriminate Hnot; reflexivity.
Qed.

(** The check makes one call, the inspection command. *)
Lemma check_calls (h : History) :
  calls_of (check_network_configured config host) h = [check_event].
Proof.
  unfold calls_of, check_network_configured, try_except, bind, run, call.
  destruct (subprocess_run host h (check_argv config) 5) as [r|e].
  - destruct (returncode r =? 0); reflexivity.
  - destruct e; reflexivity.
Qed.

Lemma configure_when_configured (h : History) :
  result_of (check_network_configured config host) h = Ok true ->
  configure_network config host h = (Ok true, [check_event]).
Proof.
  intros Hc. unfold configure_network, bind.
  pose proof (check_calls h) as Hcalls.
  unfold result_of in Hc. unfold calls_of in Hcalls.
  destruct (check_network_configured config host h) as [r evs].
  simpl in Hc, Hcalls. subst. reflexivity.
Qed.

End Manager.

Section Returns.
Variable config : Config.
Variable host : Host.

Lemma test_robot_connectivity_returns :
  returns (test_robot_connectivity config host).
Proof.
  apply returns_try_except. intros e.
  destruct e; eexists; (split; [reflexivity | apply returns_ret]).
Qed.

(** The only failures of a command are timeouts and other subprocess
    errors. *)
Hypothesis only_subprocess_errors :
  forall h argv timeout e,
    subprocess_run host h argv timeout = Raise e ->
    isinstance e C_SubprocessError = true.

Lemma check_network_configured_returns :
  returns (check_network_configured config host).
Proof.
  intros h. unfold check_network_configured, try_except, bind, run, call.
  destruct (subprocess_run host h (check_argv config) 5) as [r|e] eqn:E.
  - destruct (returncode r =? 0); eexists; reflexivity.
  - apply only_subprocess_errors in E.
    destruct e; try discriminate E; exists false; reflexivity.
Qed.

Lemma configure_network_returns :
  returns (configure_network config host).
Proof.
  unfold configure_network.
  apply returns_bind; [apply check_network_configured_returns|].
  intros [|]; [apply returns_ret|].
  apply returns_try_except. intros e.
  destruct e; eexists; (split; [reflexivity | apply returns_ret]).
Qed.

End Returns.

(** C7: in every state in which [check_network_configured] returns true,
    [configure_network] returns true at once and the only command it
    runs is the inspection command, never the privileged address-add
    command; when the interface is still configured after the first
    call, two calls in a row both return true and neither runs the add
    command. *)
Theorem configure_network_idempotent (config : Config) (host : Host) (h : History) :
  result_of (check_network_configured config host) h = Ok true ->
  configure_network config host h = (Ok true, [EvRun (check_argv config) 5]) /\
  existsb is_add_command (calls_of (configure_network config host) h) = false /\
  (result_of (check_network_configured config host)
     (h ++ [EvRun (check_argv config) 5]) = Ok true ->
   result_of (configure_twice config host) h = Ok (true, true) /\
   existsb is_add_command (calls_of (configure_twice config host) h) = false).
Proof.
  intros H1.
  pose proof (configure_when_configured config host h H1) as E1.
  repeat split.
  - exact E1.
  - unfold calls_of. rewrite E1. reflexivity.
  - pose proof (configure_when_configured config host _ H) as E2.
    unfold result_of, configure_twice, bind. rewrite E1, E2. reflexivity.
  - pose proof (configure_when_configured config host _ H) as E2.
    unfold calls_of, configure_twice, bind. rewrite E1, E2. reflexivity.
Qed.

Lemma configure_network_idempotent_witness :
  result_of (check_network_configured franka_config configured_host) [] = Ok true /\
  result_of (configure_twice franka_config configured_host) [] = Ok (true, true) /\
  calls_of (configure_twice franka_config configured_host) [] =
    [EvRun ["ip"; "addr"; "show"; "eth0"] 5; EvRun ["ip"; "addr"; "show"; "eth0"] 5].
Proof.
  split; [reflexivity|].
  destruct (configure_network_idempotent franka_config
              configured_host [] eq_refl) as (_ & _ & Htwice).
  split; [exact (proj1 (Htwice eq_refl)) | reflexivity].
Defined.

(** C6: what [check_network_configured] does with each outcome of the
    inspection command.  A completed command gives "exit code 0 and the
    address in the output", a [TimeoutExpired] or another
    [SubprocessError] gives false, and every other exception leaves the
    method.  So on a host where the command cannot be started, where
    [subprocess.run] raises an [OSError], the check raises it instead of
    returning false. *)
Theorem check_network_configured_raises_OSError :
  (forall config host h,
      check_network_configured config host h =
      (match subprocess_run host h (check_argv config) 5 with
       | Ok result =>
           Ok ((returncode result =? 0)
               && PyStr.str_in (local_ip config) (stdout result))
       | Raise e => if isinstance e C_SubprocessError then Ok false else Raise e
       end, [EvRun (check_argv config) 5])) /\
  check_network_configured franka_config host_without_ip_tool [] =
  (Raise OSError, [EvRun ["ip"; "addr"; "show"; "eth0"] 5]).
Proof.
  split; [|reflexivity].
  intros config host h.
  unfold check_network_configured, try_except, bind, run, call.
  destruct (subprocess_run host h (check_argv config) 5) as [result|e].
  - destruct (returncode result =? 0); reflexivity.
  - destruct e; reflexivity.
Qed.

(** The sibling [configure_network] catches [Exception] around its own
    command, but calls the check outside its [try]: the same error leaves
    it too.  [test_robot_connectivity] catches it. *)
Lemma configure_network_raises_OSError :
  result_of (configure_network franka_config host_without_ip_tool) [] =
  Raise OSError.
Proof. reflexivity. Qed.

Lemma test_robot_connectivity_catches_OSError :
  result_of (test_robot_connectivity franka_config host_without_ip_tool) [] =
  Ok false.
Proof. reflexivity. Qed.

End NetworkFacts.

(** ** UI command driver *)

Module DriverFacts.
Import RobotCommands Scenarios.

(** *** Locator fallback *)

Section Fallback.
Variable driver : Browser.
Variable selenium : SeleniumHelper.

Lemma spec_locator_attempt_run (timeout : Z) (l : Locator) (h : History) :
  spec_locator_attempt driver timeout l h =
  (match wait_presence driver h l timeout with
   | Ok e => Ok (Some (Some e))
   | Raise _ => Ok None
   end, [EvWaitPresence l timeout]).
Proof.
  unfold spec_locator_attempt, try_except, bind, until_presence, call.
  destruct (wait_presence driver h l timeout); reflexivity.
Qed.

Lemma unresolved_skipped (timeout : Z) (ls : list Locator) (h : History) :
  unresolved driver timeout ls h ->
  all_skipped (spec_locator_attempt driver timeout) ls h /\
  skipped_calls (spec_locator_attempt driver timeout) ls h = attempts timeout ls.
Proof.
  revert h. induction ls as [|l ls IH]; intros h Hun; simpl in *.
  - split; [exact I | reflexivity].
  - destruct Hun as [[e He] Hrest].
    rewrite spec_locator_attempt_run, He. simpl.
    destruct (IH _ Hrest) as [Hs Hc].
    split; [split; [reflexivity | exact Hs] | f_equal; exact Hc].
Qed.

(** The modelled fallback never raises. *)
Lemma spec_try_multiple_locators_returns (ls : list Locator) (timeout : Z) (h : History) :
  exists r, result_of (spec_try_multiple_locators driver ls timeout) h = Ok r.
Proof.
  unfold result_of, spec_try_multiple_locators.
  revert h. induction ls as [|l ls IH]; intros h; simpl.
  - exists None; reflexivity.
  - unfold bind. rewrite spec_locator_attempt_run.
    destruct (wait_presence driver h l timeout) as [e|x]; simpl.
    + exists (Some e); reflexivity.
    + destruct (IH (h ++ [EvWaitPresence l timeout])) as [r Hr].
      exists r.
      destruct (for_each ls _ _ (h ++ [EvWaitPresence l timeout])); simpl in *.
      exact Hr.
Qed.

(** One attempt of the task loop returns exactly when the element is
    found and the click helper returns. *)
Lemma select_task_attempt_found (c : Element) (l : Locator) (h : History)
      (e : Element) (evs : list Event) :
  elem_find_element driver h c l = Ok e ->
  click_element_robust selenium e (h ++ [EvElemFindElement c l]) = (Ok tt, evs) ->
  select_task_attempt driver selenium c l h =
  (Ok (Some true), EvElemFindElement c l :: evs).
Proof.
  intros Hf Hc.
  unfold select_task_attempt, try_except, bind, el_find_element, call, truthy.
  rewrite Hf, Hc. simpl. rewrite app_nil_r. reflexivity.
Qed.

Lemma select_task_attempt_missing (c : Element) (l : Locator) (h : History) (x : Exn) :
  elem_find_element driver h c l = Raise x ->
  select_task_attempt driver selenium c l h = (Ok None, [EvElemFindElement c l]).
Proof.
  intros Hf.
  unfold select_task_attempt, try_except, bind, el_find_element, call.
  rewrite Hf. reflexivity.
Qed.

End Fallback.

(** C1: locators are attempted strictly in listed order and the first
    one that resolves wins; the locators listed after it are not tried.
    - For the fallback helper (modelled from the spec): when the
      locators of [before] fail in turn and [l] then resolves to [e],
      the helper returns [e] and the calls made are the waits for
      [before] and for [l], in order.
    - For the task loop of [select_task_from_list], over any list of
      locators: when the attempts for [before] all go on and the element
      of [l] is then found and clicked, the loop returns true and makes
      no call for the locators after [l].
    - In [select_task_from_list] itself the exact-text locator is tried
      first and, when it is found and clicked, the contains-text locator
      is not tried; when only the contains-text locator matches, the
      element it finds is clicked and the function returns true. *)
Theorem fallback_first_match (driver : Browser) (selenium : SeleniumHelper) :
  (forall timeout before l after e h,
      unresolved driver timeout before h ->
      wait_presence driver (h ++ attempts timeout before) l timeout = Ok e ->
      spec_try_multiple_locators driver (before ++ l :: after) timeout h =
      (Ok (Some e), attempts timeout (before ++ [l]))) /\
  (forall c before l after e h evs,
      let tried := skipped_calls (select_task_attempt driver selenium c) before h in
      all_skipped (select_task_attempt driver selenium c) before h ->
      elem_find_element driver (h ++ tried) c l = Ok e ->
      click_element_robust selenium e (h ++ tried ++ [EvElemFindElement c l]) = (Ok tt, evs) ->
      select_task_loop driver selenium c (before ++ l :: after) h =
      (Ok true, tried ++ EvElemFindElement c l :: evs)) /\
  (forall task_name c e h evs_c evs,
      let exact := (XPATH, (".//span[text()='" ++ task_name ++ "']")%string) in
      try_multiple_locators selenium task_container_locators 5000 h = (Ok (Some c), evs_c) ->
      elem_find_element driver (h ++ evs_c) c exact = Ok e ->
      click_element_robust selenium e (h ++ evs_c ++ [EvElemFindElement c exact]) =
          (Ok tt, evs) ->
      select_task_from_list driver selenium task_name h =
      (Ok true, evs_c ++ EvElemFindElement c exact :: evs)) /\
  (forall task_name c x e h evs_c evs,
      let exact := (XPATH, (".//span[text()='" ++ task_name ++ "']")%string) in
      let contains := (XPATH, (".//*[contains(text(), '" ++ task_name ++ "')]")%string) in
      try_multiple_locators selenium task_container_locators 5000 h = (Ok (Some c), evs_c) ->
      elem_find_element driver (h ++ evs_c) c exact = Raise x ->
      elem_find_element driver (h ++ evs_c ++ [EvElemFindElement c exact]) c contains = Ok e ->
      click_element_robust selenium e
        (h ++ evs_c ++ [EvElemFindElement c exact; EvElemFindElement c contains]) =
            (Ok tt, evs) ->
      select_task_from_list driver selenium task_name h =
      (Ok true, evs_c ++ EvElemFindElement c exact :: EvElemFindElement c contains :: evs)).
Proof.
  repeat split.
  - intros timeout before l after e h Hun Hl.
    destruct (unresolved_skipped driver timeout before h Hun) as [Hs Hc].
    unfold spec_try_multiple_locators.
    rewrite (for_each_first _ _ before l after h (Some e) [EvWaitPresence l timeout]).
    + rewrite Hc. unfold attempts. rewrite map_app. reflexivity.
    + exact Hs.
    + rewrite spec_locator_attempt_run, Hc, Hl. reflexivity.
  - intros c before l after e h evs tried Hs Hf Hc.
    unfold select_task_loop.
    apply for_each_first; [exact Hs|].
    apply select_task_attempt_found with (e := e); [exact Hf|].
    rewrite <- app_assoc. exact Hc.
  - intros task_name c e h evs_c evs exact Hcont Hf Hc.
    unfold select_task_from_list.
    apply bind_ok with (a := Some c); [exact Hcont|].
    unfold select_task_loop, task_locators.
    apply for_each_return.
    apply select_task_attempt_found with (e := e); [exact Hf|].
    rewrite <- app_assoc. exact Hc.
  - intros task_name c x e h evs_c evs exact contains Hcont Hx Hf Hc.
    unfold select_task_from_list.
    apply bind_ok with (a := Some c); [exact Hcont|].
    unfold select_task_loop, task_locators.
    rewrite (for_each_next _ _ _ _ _ [EvElemFindElement c exact]).
    2:{ eapply select_task_attempt_missing. exact Hx. }
    rewrite (for_each_return _ _ _ _ _ true (EvElemFindElement c contains :: evs)).
    + reflexivity.
    + apply select_task_attempt_found with (e := e).
      * rewrite <- app_assoc. exact Hf.
      * rewrite <- !app_assoc. exact Hc.
Qed.

Lemma fallback_first_match_witness :
  spec_try_multiple_locators drifted_desk task_container_locators 5000 [] =
    (Ok (Some 2%nat), attempts 5000 task_container_locators) /\
  select_task_from_list drifted_desk (spec_helper drifted_desk) "Gripper_open" [] =
    (Ok true,
     attempts 5000 task_container_locators ++
     [EvElemFindElement 2%nat (XPATH, ".//span[text()='Gripper_open']");
      EvElemFindElement 2%nat (XPATH, ".//*[contains(text(), 'Gripper_open')]");
      EvClick 5%nat]).
Proof.
  destruct (fallback_first_match drifted_desk (spec_helper drifted_desk)) as
      (Hhelper & _ & _ & Hsecond).
  split.
  - apply (Hhelper 5000
             [(XPATH, "/html/body/div[2]/section/section/one-library/div/div[1]/div[2]")]
             (CSS_SELECTOR, "one-library div[class*='div'][class*='div'] div[class*='div']")
             [] 2%nat []).
    + simpl. split; [exists TimeoutException; reflexivity | exact I].
    + reflexivity.
  - apply (Hsecond "Gripper_open" 2%nat NoSuchElementException 5%nat []
             (attempts 5000 task_container_locators) [EvClick 5%nat]);
      reflexivity.
Defined.

(** *** Range validation *)

Section Validation.
Variable driver : Browser.
Variable selenium : SeleniumHelper.

Lemma set_speed_value_out_of_range (speed : Z) (h : History) :
  ~ (10 <= speed <= 100) ->
  set_speed_value driver speed h = (Ok false, []).
Proof.
  intros Hout. unfold set_speed_value.
  destruct (10 <=? speed) eqn:Elo; destruct (speed <=? 100) eqn:Ehi; simpl;
    try reflexivity.
  exfalso. apply Hout. split; [apply Z.leb_le, Elo | apply Z.leb_le, Ehi].
Qed.

Lemma set_speed_value_in_range (speed : Z) (h : History) :
  10 <= speed <= 100 ->
  exists rest,
    calls_of (set_speed_value driver speed) h =
    EvWaitPresence (XPATH, speed_input_xpath) 15000 :: rest.
Proof.
  intros [Hlo Hhi]. unfold calls_of, set_speed_value.
  apply Z.leb_le in Hlo, Hhi. rewrite Hlo, Hhi. simpl.
  unfold try_except at 1, bind at 1, wait_for_element, try_except at 1,
    bind at 1, until_presence, call.
  destruct (wait_presence driver h (XPATH, speed_input_xpath) 15000) as [e|x]; simpl.
  - match goal with
    | |- context [try_except ?m ?c ?hh] => destruct (try_except m c hh) as [[b|y] evs]
    end; simpl; eexists; reflexivity.
  - eexists; reflexivity.
Qed.

Lemma configure_gripper_close_out_of_range (speed force load : Z) (h : History) :
  ~ (10 <= speed <= 100 /\ 20 <= force <= 100 /\ 10 <= load <= 1000) ->
  configure_gripper_close driver selenium speed force load h = (Ok false, []).
Proof.
  intros Hout. unfold configure_gripper_close.
  destruct (10 <=? speed) eqn:E1; destruct (speed <=? 100) eqn:E2; simpl;
    try reflexivity.
  destruct (20 <=? force) eqn:E3; destruct (force <=? 100) eqn:E4; simpl;
    try reflexivity.
  destruct (10 <=? load) eqn:E5; destruct (load <=? 1000) eqn:E6; simpl;
    try reflexivity.
  exfalso. apply Hout.
  apply Z.leb_le in E1, E2, E3, E4, E5, E6. lia.
Qed.

Lemma configure_gripper_close_in_range (speed force load : Z) (h : History) :
  10 <= speed <= 100 -> 20 <= force <= 100 -> 10 <= load <= 1000 ->
  configure_gripper_close driver selenium speed force load h =
  configure_gripper_close_steps driver selenium speed force load h.
Proof.
  intros [H1 H2] [H3 H4] [H5 H6]. unfold configure_gripper_close.
  apply Z.leb_le in H1, H2, H3, H4, H5, H6.
  rewrite H1, H2, H3, H4, H5, H6. reflexivity.
Qed.

End Validation.

Section FirstCalls.
Variable driver : Browser.
Variable selenium : SeleniumHelper.

Lemma poll_once_begins :
  begins_with (EvFindElement ready_locator) (poll_once driver selenium).
Proof.
  unfold poll_once. apply begins_with_try_except, begins_with_bind.
  apply begins_with_call.
Qed.

(** With a positive timeout the poll starts by looking for the Ready
    text. *)
Lemma wait_for_task_completion_begins (timeout : Z) :
  0 < timeout ->
  begins_with (EvFindElement ready_locator)
              (wait_for_task_completion driver selenium timeout).
Proof.
  intros Hpos. unfold wait_for_task_completion, range.
  destruct (Z.to_nat (timeout * 2)) as [|n] eqn:En; [lia|].
  simpl. apply begins_with_try_except, begins_with_bind.
  unfold poll_iteration. apply begins_with_bind, poll_once_begins.
Qed.

Lemma configure_gripper_close_steps_begins (speed force load : Z) :
  begins_with (EvFindElement ready_locator)
              (configure_gripper_close_steps driver selenium speed force load).
Proof.
  unfold configure_gripper_close_steps.
  apply begins_with_try_except, begins_with_bind.
  apply wait_for_task_completion_begins. lia.
Qed.

End FirstCalls.

(** C2: validation is by closed intervals.  [set_speed_value] returns
    false without any call to the browser for every speed outside
    [10,100] (9 and 101 among them) and, for every speed inside (10 and
    100 among them), goes on to the browser, its first call being the
    wait for the speed field.  [configure_gripper_close] returns false
    without any call as soon as the speed is outside [10,100], the force
    outside [20,100] or the load outside [10,1000], and for values
    inside all three intervals (bounds included) it runs its steps, the
    first call being the lookup of the Ready text. *)
Theorem validation_inclusive_ranges (driver : Browser) (selenium : SeleniumHelper) :
  (forall speed h,
      ~ (10 <= speed <= 100) ->
      set_speed_value driver speed h = (Ok false, [])) /\
  (forall speed h,
      10 <= speed <= 100 ->
      exists rest,
        calls_of (set_speed_value driver speed) h =
        EvWaitPresence (XPATH, speed_input_xpath) 15000 :: rest) /\
  (forall h,
      set_speed_value driver 9 h = (Ok false, []) /\
      set_speed_value driver 101 h = (Ok false, []) /\
      calls_of (set_speed_value driver 10) h <> [] /\
      calls_of (set_speed_value driver 100) h <> []) /\
  (forall speed force load h,
      ~ (10 <= speed <= 100 /\ 20 <= force <= 100 /\ 10 <= load <= 1000) ->
      configure_gripper_close driver selenium speed force load h = (Ok false, [])) /\
  (forall speed force load h,
      10 <= speed <= 100 -> 20 <= force <= 100 -> 10 <= load <= 1000 ->
      configure_gripper_close driver selenium speed force load h =
      configure_gripper_close_steps driver selenium speed force load h /\
      exists rest,
        calls_of (configure_gripper_close driver selenium speed force load) h =
        EvFindElement ready_locator :: rest).
Proof.
  split; [|split; [|split; [|split]]].
  - intros speed h. apply set_speed_value_out_of_range.
  - intros speed h. apply set_speed_value_in_range.
  - intros h. split; [|split; [|split]].
    + apply set_speed_value_out_of_range. lia.
    + apply set_speed_value_out_of_range. lia.
    + destruct (set_speed_value_in_range driver 10 h) as [rest ->]; [lia | discriminate].
    + destruct (set_speed_value_in_range driver 100 h) as [rest ->]; [lia | discriminate].
  - intros speed force load h. apply configure_gripper_close_out_of_range.
  - intros speed force load h Hs Hf Hl.
    pose proof
        (configure_gripper_close_in_range driver selenium speed force load h Hs Hf Hl) as E.
    split; [exact E|].
    unfold calls_of. rewrite E.
    apply configure_gripper_close_steps_begins.
Qed.

Lemma validation_inclusive_ranges_witness :
  set_speed_value desk 9 [] = (Ok false, []) /\
  set_speed_value desk 101 [] = (Ok false, []) /\
  result_of (set_speed_value desk 10) [] = Ok true /\
  result_of (set_speed_value desk 100) [] = Ok true /\
  configure_gripper_close desk (spec_helper desk) 50 19 400 [] = (Ok false, []) /\
  configure_gripper_close desk (spec_helper desk) 50 101 400 [] = (Ok false, []) /\
  configure_gripper_close desk (spec_helper desk) 50 80 9 [] = (Ok false, []) /\
  configure_gripper_close desk (spec_helper desk) 50 80 1001 [] = (Ok false, []) /\
  result_of (configure_gripper_close desk (spec_helper desk) 10 20 10) [] = Ok true /\
  result_of (configure_gripper_close desk (spec_helper desk) 100 100 1000) [] = Ok true.
Proof.
  destruct (validation_inclusive_ranges desk (spec_helper desk)) as
      (Hout & Hin & _ & Hcout & Hcin).
  split; [apply Hout; lia|].
  split; [apply Hout; lia|].
  split; [destruct (Hin 10 []) as [rest _]; [lia | reflexivity]|].
  split; [destruct (Hin 100 []) as [rest _]; [lia | reflexivity]|].
  split; [apply Hcout; lia|].
  split; [apply Hcout; lia|].
  split; [apply Hcout; lia|].
  split; [apply Hcout; lia|].
  split.
  - destruct (Hcin 10 20 10 []) as [E _]; [lia | lia | lia |].
    unfold result_of. rewrite E. vm_compute. reflexivity.
  - destruct (Hcin 100 100 1000 []) as [E _]; [lia | lia | lia |].
    unfold result_of. rewrite E. vm_compute. reflexivity.
Defined.

(** C3: as soon as one of speed, force and load is outside its interval,
    [configure_gripper_close] returns false without a single call to the
    browser or to the session helper: all three intervals are checked
    before the poll for completion, the task selection and every other
    step. *)
Theorem configure_gripper_close_fails_fast
        (driver : Browser) (selenium : SeleniumHelper)
        (speed force load : Z) (h : History) :
  ~ (10 <= speed <= 100) \/ ~ (20 <= force <= 100) \/ ~ (10 <= load <= 1000) ->
  configure_gripper_close driver selenium speed force load h = (Ok false, []).
Proof.
  intros Hout. apply configure_gripper_close_out_of_range. lia.
Qed.

Lemma configure_gripper_close_fails_fast_witness :
  ~ (20 <= 150 <= 100) /\
  configure_gripper_close desk (spec_helper desk) 50 150 400 [] = (Ok false, []).
Proof.
split; [lia|].
  apply (configure_gripper_close_fails_fast desk (spec_helper desk) 50 150 400 []).
  right; left; lia.
Defined.


(** *** The force and load setters *)

(** C9: [set_force_value] and [set_load_value] check no range.  For
    every integer, 150 for the force or 5 for the load included, they
    wait for the field and, when it resolves and the click and the key
    sequence succeed, type the decimal string of the value and return
    true.  [set_speed_value] is the only setter with a range check of
    its own, and for the force and the load the check is the one that
    [configure_gripper_close] makes before it reaches the setters. *)
Theorem force_and_load_setters_unchecked (driver : Browser) :
  (forall force h element,
      let found := EvWaitPresence (XPATH, force_input_xpath) 15000 in
      wait_presence driver h (XPATH, force_input_xpath) 15000 = Ok element ->
      click driver (h ++ [found]) element = Ok tt ->
      perform driver (h ++ [found; EvClick element]) (type_value force) = Ok tt ->
      set_force_value driver force h =
      (Ok true, [found; EvClick element; EvPerform (type_value force)])) /\
  (forall load h element,
      let found := EvWaitPresence (XPATH, load_input_xpath) 15000 in
      wait_presence driver h (XPATH, load_input_xpath) 15000 = Ok element ->
      click driver (h ++ [found]) element = Ok tt ->
      perform driver (h ++ [found; EvClick element]) (type_value load) = Ok tt ->
      set_load_value driver load h =
      (Ok true, [found; EvClick element; EvPerform (type_value load)])) /\
  (forall speed h,
      ~ (10 <= speed <= 100) ->
      set_speed_value driver speed h = (Ok false, [])) /\
  (forall selenium speed force load h,
      ~ (20 <= force <= 100) \/ ~ (10 <= load <= 1000) ->
      configure_gripper_close driver selenium speed force load h = (Ok false, [])).
Proof.
  split; [|split; [|split]].
  - intros force h element found Hw Hc Hp.
    unfold set_force_value, try_except, bind, wait_for_element, try_except, bind,
      until_presence, el_click, actions_perform, call.
    rewrite Hw. simpl. fold found. rewrite Hc. simpl.
    rewrite <- app_assoc. simpl. rewrite Hp. reflexivity.
  - intros load h element found Hw Hc Hp.
    unfold set_load_value, try_except, bind, wait_for_element, try_except, bind,
      until_presence, el_click, actions_perform, call.
    rewrite Hw. simpl. fold found. rewrite Hc. simpl.
    rewrite <- app_assoc. simpl. rewrite Hp. reflexivity.
  - intros speed h. apply set_speed_value_out_of_range.
  - intros selenium speed force load h Hout.
    apply configure_gripper_close_out_of_range. lia.
Qed.

Lemma force_and_load_setters_unchecked_witness :
  set_force_value desk 150 [] =
    (Ok true,
     [EvWaitPresence (XPATH, force_input_xpath) 15000; EvClick 12%nat;
      EvPerform [key_down CONTROL; send_keys "a"; key_up CONTROL;
                 send_keys "150"; send_key ENTER]]) /\
  set_load_value desk 5 [] =
    (Ok true,
     [EvWaitPresence (XPATH, load_input_xpath) 15000; EvClick 13%nat;
      EvPerform [key_down CONTROL; send_keys "a"; key_up CONTROL;
                 send_keys "5"; send_key ENTER]]) /\
  set_speed_value desk 150 [] = (Ok false, []) /\
  configure_gripper_close desk (spec_helper desk) 50 150 400 [] = (Ok false, []).
Proof.
  destruct (force_and_load_setters_unchecked desk) as (Hforce & Hload & Hspeed & Hclose).
  split; [apply (Hforce 150 [] 12%nat); reflexivity|].
  split; [apply (Hload 5 [] 13%nat); reflexivity|].
  split; [apply Hspeed; lia|].
  apply Hclose. left; lia.
Defined.


(** *** The completion poll *)

Section Poll.
Variable driver : Browser.
Variable selenium : SeleniumHelper.

(** One iteration either returns true or falls through; it never
    raises. *)
Lemma poll_once_cases (h : History) :
  exists evs, poll_once driver selenium h = (Ok (Some true), evs)
      \/ poll_once driver selenium h = (Ok None, evs).
Proof.
  unfold poll_once, try_except, bind, driver_find_element,
    el_get_attribute, el_text, call.
  destruct (find_element driver h ready_locator) as [r|x]; simpl;
    [|eexists; right; reflexivity].
  destruct (try_multiple_locators selenium poll_button_locators 500 _)
    as [[[b|]|x] evs]; simpl; try (eexists; right; reflexivity).
  destruct (get_attribute driver _ b "class") as [c|x]; simpl;
    [|eexists; right; reflexivity].
  destruct (text driver _ b) as [t|x]; simpl; [|eexists; right; reflexivity].
  destruct (negb (PyStr.str_in "stop" (or_empty c))
            && negb (PyStr.str_in "stop" (PyStr.lower t))); simpl;
    eexists; [left|right]; reflexivity.
Qed.

(** An iteration returns true exactly when it observes the idle
    state. *)
Lemma poll_once_true_iff (h : History) :
  result_of (poll_once driver selenium) h = Ok (Some true) <-> observes_idle driver selenium h.
Proof.
  unfold result_of, observes_idle, poll_once,
    try_except, bind, driver_find_element, el_get_attribute, el_text, call.
  split.
  - destruct (find_element driver h ready_locator) as [r|x]; simpl; [|discriminate].
    destruct (try_multiple_locators selenium poll_button_locators 500 _)
      as [[[b|]|x] evs] eqn:Eb; simpl; try discriminate.
    rewrite <- !app_assoc. simpl.
    destruct (get_attribute driver _ b "class") as [c|x] eqn:Ec; simpl; [|discriminate].
    destruct (text driver _ b) as [t|x] eqn:Et; simpl; [|discriminate].
    destruct (PyStr.str_in "stop" (or_empty c)) eqn:E1; simpl; [discriminate|].
    destruct (PyStr.str_in "stop" (PyStr.lower t)) eqn:E2; simpl; [discriminate|].
    intros _. exists r, b, evs, c, t. repeat split; assumption.
  - intros (r & b & evs & c & t & Hr & Hb & Hc & Ht & E1 & E2).
    rewrite Hr. simpl. rewrite Hb. simpl.
    rewrite <- !app_assoc. simpl. rewrite Hc. simpl. rewrite Ht. simpl.
    rewrite E1, E2. reflexivity.
Qed.

Lemma poll_once_none (h : History) :
  ~ observes_idle driver selenium h -> poll_once driver selenium h = (Ok None, calls_of
      (poll_once driver selenium) h).
Proof.
  intros Hn. destruct (poll_once_cases h) as [evs [E|E]].
  - exfalso. apply Hn, poll_once_true_iff. unfold result_of. rewrite E. reflexivity.
  - unfold calls_of. rewrite E. reflexivity.
Qed.

Lemma observes_idle_dec (h : History) : observes_idle driver selenium h
    \/ ~ observes_idle driver selenium h.
Proof.
  destruct (poll_once_cases h) as [evs [E|E]].
  - left. apply poll_once_true_iff. unfold result_of. rewrite E. reflexivity.
  - right. intros Hi. apply poll_once_true_iff in Hi.
    unfold result_of in Hi. rewrite E in Hi. discriminate.
Qed.

Lemma poll_iteration_done (i : nat) (h : History) :
  observes_idle driver selenium h ->
  poll_iteration driver selenium i h = (Ok (Some true), calls_of (poll_once driver selenium) h).
Proof.
  intros Hi. apply poll_once_true_iff in Hi.
  unfold poll_iteration, bind, result_of, calls_of in *.
  destruct (poll_once driver selenium h) as [r evs]. simpl in *. subst r. simpl.
  rewrite app_nil_r. reflexivity.
Qed.

Lemma poll_iteration_sleeps (i : nat) (h : History) :
  ~ observes_idle driver selenium h ->
  poll_iteration driver selenium i h = (Ok None, calls_of
      (poll_once driver selenium) h ++ [EvSleep 500]).
Proof.
  intros Hn. unfold poll_iteration, bind.
  rewrite (poll_once_none h Hn). reflexivity.
Qed.

Lemma poll_history_S (k : nat) (h : History) :
  poll_history driver selenium (S k) h =
  poll_history driver selenium k (h ++ calls_of (poll_once driver selenium) h ++ [EvSleep 500]).
Proof. unfold poll_history. simpl. rewrite app_assoc. reflexivity. Qed.

Lemma poll_history_0 (h : History) : poll_history driver selenium 0 h = h.
Proof. unfold poll_history. simpl. apply app_nil_r. Qed.

(** The loop returns true at the first iteration that observes the
    idle state. *)
Lemma poll_loop_found (n s k : nat) (h : History) :
  (k < n)%nat ->
  (forall j, (j < k)%nat -> ~ observes_idle driver selenium
      (poll_history driver selenium j h)) ->
  observes_idle driver selenium (poll_history driver selenium k h) ->
  for_each (seq s n) (poll_iteration driver selenium) (ret false) h =
  (Ok true, poll_calls driver selenium k h ++ calls_of (poll_once driver selenium)
      (poll_history driver selenium k h)).
Proof.
  revert n s h. induction k as [|k IH]; intros n s h Hlt Hbefore Hidle.
  - destruct n as [|n]; [lia|]. rewrite poll_history_0 in *. simpl seq.
    apply for_each_return. apply poll_iteration_done. exact Hidle.
  - destruct n as [|n]; [lia|]. simpl seq.
    assert (H0 : ~ observes_idle driver selenium h).
    { specialize (Hbefore 0%nat). rewrite poll_history_0 in Hbefore.
      apply Hbefore. lia. }
    rewrite (for_each_next _ _ _ _ _ _ (poll_iteration_sleeps s h H0)).
    rewrite poll_history_S in Hidle.
    rewrite (IH n (S s) _); [| lia | | exact Hidle].
    + simpl. rewrite poll_history_S, <- !app_assoc. reflexivity.
    + intros j Hj. rewrite <- poll_history_S. apply Hbefore. lia.
Qed.

(** The loop runs all its iterations and returns false when none of
    them observes the idle state. *)
Lemma poll_loop_exhausted (n s : nat) (h : History) :
  (forall k, (k < n)%nat -> ~ observes_idle driver selenium
      (poll_history driver selenium k h)) ->
  for_each (seq s n) (poll_iteration driver selenium) (ret false) h =
      (Ok false, poll_calls driver selenium n h).
Proof.
  revert s h. induction n as [|n IH]; intros s h Hnone.
  - reflexivity.
  - simpl seq.
    assert (H0 : ~ observes_idle driver selenium h).
    { specialize (Hnone 0%nat). rewrite poll_history_0 in Hnone.
      apply Hnone. lia. }
    rewrite (for_each_next _ _ _ _ _ _ (poll_iteration_sleeps s h H0)).
    rewrite (IH (S s) _).
    + simpl. rewrite <- !app_assoc. reflexivity.
    + intros k Hk. rewrite <- poll_history_S. apply Hnone. lia.
Qed.

(** Either some iteration is the first to observe the idle state, or
    none does. *)
Lemma poll_first_or_none (n : nat) (h : History) :
  (exists k, (k < n)%nat /\
             (forall j, (j < k)%nat -> ~ observes_idle driver selenium
                 (poll_history driver selenium j h)) /\
             observes_idle driver selenium (poll_history driver selenium k h)) \/
  (forall k, (k < n)%nat -> ~ observes_idle driver selenium (poll_history driver selenium k h)).
Proof.
  revert h. induction n as [|n IH]; intros h.
  - right. intros k Hk. lia.
  - destruct (observes_idle_dec h) as [Hi|Hn].
    + left. exists 0%nat. rewrite poll_history_0.
      split; [lia | split; [intros j Hj; lia | exact Hi]].
    + destruct (IH (h ++ calls_of (poll_once driver selenium) h ++ [EvSleep 500]))
        as [(k & Hk & Hbefore & Hidle)|Hnone].
      * left. exists (S k). split; [lia|]. split.
        -- intros [|j] Hj; [rewrite poll_history_0; exact Hn|].
           rewrite poll_history_S. apply Hbefore. lia.
        -- rewrite poll_history_S. exact Hidle.
      * right. intros [|k] Hk; [rewrite poll_history_0; exact Hn|].
        rewrite poll_history_S. apply Hnone. lia.
Qed.

Lemma wait_for_task_completion_unfold (timeout : Z) (h : History) :
  wait_for_task_completion driver selenium timeout h =
  for_each (seq 0 (Z.to_nat (timeout * 2))) (poll_iteration driver selenium) (ret false) h.
Proof.
  unfold wait_for_task_completion, range, try_except.
  destruct (poll_first_or_none (Z.to_nat (timeout * 2)) h)
    as [(k & Hk & Hbefore & Hidle)|Hnone].
  - rewrite (poll_loop_found _ 0 k h Hk Hbefore Hidle). reflexivity.
  - rewrite (poll_loop_exhausted _ 0 h Hnone). reflexivity.
Qed.

End Poll.


(** C4, as the code has it: the poll makes [2 * timeout] iterations (60
    for the default of 30 seconds), each followed by a sleep of half a
    second.  It returns true in the first iteration that finds the Ready
    text, resolves the execution button and reads a class attribute
    without "stop" and a text that, put in lower case, is without
    "stop"; the calls made are those of the iterations before it and its
    own.  When no iteration observes this, it returns false after the
    last one.  It returns a boolean in every case. *)
Theorem completion_poll (driver : Browser) (selenium : SeleniumHelper)
        (timeout : Z) (h : History) :
  let n := Z.to_nat (timeout * 2) in
  (forall k,
      (k < n)%nat ->
      (forall j, (j < k)%nat ->
                 ~ observes_idle driver selenium (poll_history driver selenium j h)) ->
      observes_idle driver selenium (poll_history driver selenium k h) ->
      wait_for_task_completion driver selenium timeout h =
      (Ok true,
       poll_calls driver selenium k h ++
       calls_of (poll_once driver selenium) (poll_history driver selenium k h))) /\
  ((forall k, (k < n)%nat ->
              ~ observes_idle driver selenium (poll_history driver selenium k h)) ->
   wait_for_task_completion driver selenium timeout h =
   (Ok false, poll_calls driver selenium n h)) /\
  (exists b, result_of (wait_for_task_completion driver selenium timeout) h = Ok b) /\
  length (range (30 * 2)) = 60%nat.
Proof.
  intro n. split; [|split; [|split]].
  - intros k Hk Hbefore Hidle.
    rewrite wait_for_task_completion_unfold.
    apply poll_loop_found; assumption.
  - intros Hnone.
    rewrite wait_for_task_completion_unfold.
    apply poll_loop_exhausted; assumption.
  - unfold result_of. rewrite wait_for_task_completion_unfold.
    destruct (poll_first_or_none driver selenium n h)
      as [(k & Hk & Hbefore & Hidle)|Hnone].
    + exists true. fold n. rewrite (poll_loop_found _ _ n 0 k h Hk Hbefore Hidle).
      reflexivity.
    + exists false. fold n. rewrite (poll_loop_exhausted _ _ n 0 h Hnone).
      reflexivity.
  - reflexivity.
Qed.

(** On the vendor page whose execution button reads "Stop" for good, no
    iteration observes the idle state. *)
Lemma stop_button_never_idle (h : History) :
  ~ observes_idle stuck_desk (spec_helper stuck_desk) h.
Proof.
  intros Hi. apply poll_once_true_iff in Hi. discriminate Hi.
Qed.

Lemma completion_poll_witness :
  result_of (wait_for_task_completion busy_desk (spec_helper busy_desk) 30) [] = Ok true /\
  count_sleeps
    (calls_of (wait_for_task_completion busy_desk (spec_helper busy_desk) 30) []) = 3%nat /\
  result_of (wait_for_task_completion stuck_desk (spec_helper stuck_desk) 30) [] = Ok false /\
  count_sleeps
    (calls_of (wait_for_task_completion stuck_desk (spec_helper stuck_desk) 30) []) = 60%nat.
Proof.
  destruct (completion_poll busy_desk (spec_helper busy_desk) 30 []) as (Hfound & _).
  destruct (completion_poll stuck_desk (spec_helper stuck_desk) 30 []) as (_ & Hnone & _).
  assert (E1 : wait_for_task_completion busy_desk (spec_helper busy_desk) 30 [] =
               (Ok true,
                poll_calls busy_desk (spec_helper busy_desk) 3 [] ++
                calls_of (poll_once busy_desk (spec_helper busy_desk))
                         (poll_history busy_desk (spec_helper busy_desk) 3 []))).
  { apply Hfound.
    - vm_compute. lia.
    - intros j Hj Hi. apply poll_once_true_iff in Hi.
      destruct j as [|[|[|j]]]; [discriminate Hi | discriminate Hi | discriminate Hi | lia].
    - apply poll_once_true_iff. reflexivity. }
  assert (E2 : wait_for_task_completion stuck_desk (spec_helper stuck_desk) 30 [] =
               (Ok false, poll_calls stuck_desk (spec_helper stuck_desk) (Z.to_nat
                   (30 * 2)) [])).
  { apply Hnone. intros k _. apply stop_button_never_idle. }
  unfold result_of, calls_of. rewrite E1, E2.
  split; [reflexivity|]. split; [reflexivity|]. split; reflexivity.
Defined.

(** The claim of C4 as it is worded fails on a button whose text is in
    capitals: already the first iteration finds the Ready text and a
    button whose class attribute and text, as shown, are without the
    substring "stop", and yet the poll returns false, because the text
    is compared in lower case. *)
Lemma completion_poll_capitals_counterexample :
  observes_idle_as_shown capitals_desk (spec_helper capitals_desk) [] /\
  result_of (wait_for_task_completion capitals_desk (spec_helper capitals_desk) 30) []
      = Ok false.
Proof.
split.
  - exists 1%nat, 3%nat,
      [EvWaitPresence
         (CSS_SELECTOR, "body > div:nth-child(2) > section > one-sidebar > div.sidebar-body > div > div.fixed-sections > footer > section > div > div")
         500],
      (Some "execution-button"), "STOP".
    repeat split.
  - vm_compute. reflexivity.
Qed.

(** C10: the poll returns true only in an iteration in which the helper
    resolves the execution button, and when the helper never resolves it
    the poll runs all its iterations and returns false, whether the Ready
    text is present or not. *)
Theorem completion_requires_button (driver : Browser) (selenium : SeleniumHelper)
        (timeout : Z) (h : History) :
  (result_of (wait_for_task_completion driver selenium timeout) h = Ok true ->
   exists k button,
     (k < Z.to_nat (timeout * 2))%nat /\
     result_of (try_multiple_locators selenium poll_button_locators 500)
               (poll_history driver selenium k h ++ [EvFindElement ready_locator])
     = Ok (Some button)) /\
  ((forall h' button,
       result_of (try_multiple_locators selenium poll_button_locators 500) h'
       <> Ok (Some button)) ->
   wait_for_task_completion driver selenium timeout h =
   (Ok false, poll_calls driver selenium (Z.to_nat (timeout * 2)) h)).
Proof.
  split.
  - intros Htrue. unfold result_of in Htrue.
    rewrite wait_for_task_completion_unfold in Htrue.
    destruct (poll_first_or_none driver selenium (Z.to_nat (timeout * 2)) h)
      as [(k & Hk & Hbefore & Hidle)|Hnone].
    + destruct Hidle as (r & b & evs & c & t & _ & Hb & _).
      exists k, b. split; [exact Hk|]. unfold result_of. rewrite Hb. reflexivity.
    + rewrite (poll_loop_exhausted _ _ _ 0 h Hnone) in Htrue. discriminate.
  - intros Hnever. rewrite wait_for_task_completion_unfold.
    apply poll_loop_exhausted. intros k _ (r & b & evs & c & t & _ & Hb & _).
    apply (Hnever (poll_history driver selenium k h ++ [EvFindElement ready_locator]) b).
    unfold result_of. rewrite Hb. reflexivity.
Qed.

Lemma spec_helper_without_button (h : History) :
  result_of (try_multiple_locators
      (spec_helper desk_without_button) poll_button_locators 500) h = Ok None.
Proof. reflexivity. Qed.

Lemma completion_requires_button_witness :
  find_element desk_without_button [] ready_locator = Ok 1%nat /\
  result_of (wait_for_task_completion desk_without_button
      (spec_helper desk_without_button) 30) [] = Ok false /\
  count_sleeps
    (calls_of (wait_for_task_completion desk_without_button
        (spec_helper desk_without_button) 30) []) = 60%nat.
Proof.
split; [reflexivity|].
  destruct (completion_requires_button desk_without_button
      (spec_helper desk_without_button) 30 []) as [_ Hnever].
  assert (E : wait_for_task_completion desk_without_button
      (spec_helper desk_without_button) 30 [] =
              (Ok false, poll_calls desk_without_button (spec_helper desk_without_button)
                  (Z.to_nat (30 * 2)) [])).
  { apply Hnever. intros h' button Hb.
    rewrite (spec_helper_without_button h') in Hb. discriminate Hb. }
  unfold result_of, calls_of. rewrite E. split; reflexivity.
Defined.


(** *** The gripper commands *)

(** [gripper_open] is the script of four steps: select the task, click
    the execution button, click CONFIRM, poll for completion. *)
Lemma gripper_open_script (driver : Browser) (selenium : SeleniumHelper) :
  gripper_open driver selenium =
  run_script [select_task_from_list driver selenium "Gripper_open";
              click_execution_button selenium;
              click_confirm_button selenium;
              wait_for_task_completion driver selenium 30].
Proof. reflexivity. Qed.

(** [gripper_close] first waits for a task in flight, whatever the
    outcome of the wait, and then runs the same four steps. *)
Lemma gripper_close_script (driver : Browser) (selenium : SeleniumHelper) :
  gripper_close driver selenium =
  (wait_for_task_completion driver selenium 10 ;;
   run_script [select_task_from_list driver selenium "Gripper_close";
               click_execution_button selenium;
               click_confirm_button selenium;
               wait_for_task_completion driver selenium 30]).
Proof. reflexivity. Qed.

(** C5: [gripper_open] is the script select, execute, confirm, poll,
    without the wait for a task in flight that [gripper_close] starts
    with.  With a task in flight (the execution button reads "Stop" for
    the first three polls), its first three calls resolve the task list,
    find the task entry and click it, where the script of the spec, like
    [gripper_close], starts with the poll for the task in flight. *)
Theorem gripper_open_skips_in_flight_wait :
  (forall driver selenium,
      gripper_open driver selenium =
      run_script [select_task_from_list driver selenium "Gripper_open";
                  click_execution_button selenium;
                  click_confirm_button selenium;
                  wait_for_task_completion driver selenium 30]) /\
  (forall driver selenium,
      gripper_close driver selenium =
      (wait_for_task_completion driver selenium 10 ;;
       run_script [select_task_from_list driver selenium "Gripper_close";
                   click_execution_button selenium;
                   click_confirm_button selenium;
                   wait_for_task_completion driver selenium 30])) /\
  text busy_desk [] 3%nat = Ok "Stop" /\
  firstn 3 (calls_of (gripper_open busy_desk
                        (spec_helper busy_desk)) []) =
    [EvWaitPresence
       (XPATH, "/html/body/div[2]/section/section/one-library/div/div[1]/div[2]") 5000;
     EvElemFindElement 2%nat (XPATH, ".//span[text()='Gripper_open']");
     EvClick 5%nat] /\
  hd_error (calls_of (open_gripper_as_specified busy_desk
                        (spec_helper busy_desk)) []) =
    Some (EvFindElement ready_locator) /\
  hd_error (calls_of (gripper_close busy_desk
                        (spec_helper busy_desk)) []) =
    Some (EvFindElement ready_locator) /\
  gripper_open busy_desk (spec_helper busy_desk) [] <>
  open_gripper_as_specified busy_desk (spec_helper busy_desk) [].
Proof.
  split; [intros; apply gripper_open_script|].
  split; [intros; apply gripper_close_script|].
  repeat split; try (vm_compute; reflexivity).
  vm_compute. discriminate.
Qed.


(** *** Results of the public methods *)

Section Returns.
Variable driver : Browser.
Variable selenium : SeleniumHelper.

Lemma wait_for_element_returns locator timeout :
  returns (wait_for_element driver locator timeout).
Proof. apply returns_catch_all. Qed.

Lemma wait_for_clickable_element_returns locator timeout :
  returns (wait_for_clickable_element driver locator timeout).
Proof. apply returns_catch_all. Qed.

Lemma click_continue_button_returns : returns (click_continue_button driver).
Proof. apply returns_catch_Exception. Qed.

Lemma set_speed_value_returns speed : returns (set_speed_value driver speed).
Proof.
  unfold set_speed_value.
  destruct (negb ((10 <=? speed) && (speed <=? 100)));
    [apply returns_ret | apply returns_catch_Exception].
Qed.

Lemma set_force_value_returns force : returns (set_force_value driver force).
Proof. apply returns_catch_Exception. Qed.

Lemma set_load_value_returns load : returns (set_load_value driver load).
Proof. apply returns_catch_Exception. Qed.

Lemma wait_for_task_completion_returns timeout :
  returns (wait_for_task_completion driver selenium timeout).
Proof. apply returns_catch_Exception. Qed.

Lemma configure_gripper_open_returns speed :
  returns (configure_gripper_open driver selenium speed).
Proof. apply returns_catch_Exception. Qed.

Lemma configure_gripper_close_returns speed force load :
  returns (configure_gripper_close driver selenium speed force load).
Proof.
  unfold configure_gripper_close.
  destruct (negb ((10 <=? speed) && (speed <=? 100))); [apply returns_ret|].
  destruct (negb ((20 <=? force) && (force <=? 100))); [apply returns_ret|].
  destruct (negb ((10 <=? load) && (load <=? 1000))); [apply returns_ret|].
  apply returns_catch_Exception.
Qed.

(** The methods that call the session helper outside a [try] return
    when the helper does. *)
Hypothesis try_multiple_locators_returns :
  forall locators timeout, returns (try_multiple_locators selenium locators timeout).
Hypothesis click_element_robust_returns :
  forall element, returns (click_element_robust selenium element).

Lemma select_task_from_list_returns task_name :
  returns (select_task_from_list driver selenium task_name).
Proof.
  unfold select_task_from_list.
  apply returns_bind; [apply try_multiple_locators_returns|].
  intros [c|]; [|apply returns_ret].
  apply returns_for_each; [|apply returns_ret].
  intros l. apply returns_catch_all.
Qed.

Lemma click_resolved_returns (locators : list Locator) (timeout : Z) :
  returns
    (found <- try_multiple_locators selenium locators timeout ;;
     match found with
     | Some element => click_element_robust selenium element ;; ret true
     | None => ret false
     end).
Proof.
  apply returns_bind; [apply try_multiple_locators_returns|].
  intros [e|]; [|apply returns_ret].
  apply returns_bind; [apply click_element_robust_returns|].
  intros _. apply returns_ret.
Qed.

Lemma gripper_steps_return task_name :
  Forall returns
    [select_task_from_list driver selenium task_name;
     click_execution_button selenium;
     click_confirm_button selenium;
     wait_for_task_completion driver selenium 30].
Proof.
  repeat constructor.
  - apply select_task_from_list_returns.
  - apply click_resolved_returns.
  - apply click_resolved_returns.
  - apply wait_for_task_completion_returns.
Qed.

Lemma gripper_open_returns : returns (gripper_open driver selenium).
Proof.
  rewrite gripper_open_script. apply returns_run_script, gripper_steps_return.
Qed.

Lemma gripper_close_returns : returns (gripper_close driver selenium).
Proof.
  rewrite gripper_close_script.
  apply returns_bind; [apply wait_for_task_completion_returns|].
  intros _. apply returns_run_script, gripper_steps_return.
Qed.

(** [wait_for_ready] returns true when the wait returns the element
    and false when it raises [TimeoutException]; any other exception
    of the wait leaves it. *)
Lemma wait_for_ready_run (h : History) :
  wait_for_ready driver h =
  (match wait_presence driver h ready_locator 30000 with
   | Ok _ => Ok (Some true)
   | Raise TimeoutException => Ok (Some false)
   | Raise e => Raise e
   end, [EvWaitPresence ready_locator 30000]).
Proof.
  unfold wait_for_ready, try_except, bind, until_presence, call, truthy.
  destruct (wait_presence driver h ready_locator 30000) as [e|[]]; reflexivity.
Qed.

Lemma of_bool_returns (m : M bool) (h : History) :
  returns m -> exists b, result_of (of_bool m) h = Ok (PyBool b).
Proof.
  intros Hm. destruct (Hm h) as [b Hb]. exists b.
  unfold result_of, of_bool, bind.
  destruct (m h) as [r evs]. simpl in Hb. subst r. reflexivity.
Qed.

End Returns.


(** C8, as the code has it.  When the only failures are the ones the
    claim names -- a command that times out (or another subprocess
    error), a wait that times out because the element is not found, a
    click whose interception the session helper handles, so that both
    helper methods return -- every public method of [NetworkManager] and
    of [FrankaRobotCommands] returns a boolean and raises nothing, but
    for the two element lookups [wait_for_element] and
    [wait_for_clickable_element], which return the element or [None].
    In particular [wait_for_ready] returns true when the Ready text
    appears within its 30 seconds and false when the wait times out. *)
Theorem public_operations_return_booleans :
  (forall config host,
      (forall h argv timeout e,
          NetworkManager.subprocess_run host h argv timeout = Raise e ->
          isinstance e C_SubprocessError = true) ->
      forall op h,
        exists b, result_of (NetworkManager.invoke config host op) h = Ok b) /\
  (forall driver selenium,
      (forall h e, wait_presence driver h ready_locator 30000 = Raise e ->
                   e = TimeoutException) ->
      (forall locators timeout,
          returns (try_multiple_locators selenium locators timeout)) ->
      (forall element, returns (click_element_robust selenium element)) ->
      forall op h,
        if is_lookup op
        then exists r,
            result_of (invoke driver selenium op) h =
            Ok (match r with
                | Some e => PyElement e
                | None => PyNone
                end)
        else exists b, result_of (invoke driver selenium op) h = Ok (PyBool b)) /\
  (forall driver h,
      (forall e, wait_presence driver h ready_locator 30000 = Ok e ->
                 result_of (wait_for_ready driver) h = Ok (Some true)) /\
      (wait_presence driver h ready_locator 30000 = Raise TimeoutException ->
       result_of (wait_for_ready driver) h = Ok (Some false))).
Proof.
  split; [|split].
  - intros config host Herr op h. destruct op; simpl.
    + apply NetworkFacts.check_network_configured_returns. exact Herr.
    + apply NetworkFacts.configure_network_returns. exact Herr.
    + apply NetworkFacts.test_robot_connectivity_returns.
  - intros driver selenium Hwait Htry Hclick op h.
    destruct op; simpl.
    + destruct (wait_for_element_returns driver locator timeout h) as [r Hr].
      exists r. unfold result_of, of_optional_element, bind.
      destruct (wait_for_element driver locator timeout h) as [x evs].
      simpl in Hr. subst x. reflexivity.
    + destruct (wait_for_clickable_element_returns driver locator timeout h) as [r Hr].
      exists r. unfold result_of, of_optional_element, bind.
      destruct (wait_for_clickable_element driver locator timeout h) as [x evs].
      simpl in Hr. subst x. reflexivity.
    + apply of_bool_returns, select_task_from_list_returns; assumption.
    + apply of_bool_returns, click_resolved_returns; assumption.
    + apply of_bool_returns, click_resolved_returns; assumption.
    + unfold result_of, of_optional_bool, bind. rewrite wait_for_ready_run.
      destruct (wait_presence driver h ready_locator 30000) as [e|e] eqn:E.
      * exists true. reflexivity.
      * rewrite (Hwait h e E). exists false. reflexivity.
    + apply of_bool_returns, click_resolved_returns; assumption.
    + apply of_bool_returns, click_continue_button_returns.
    + apply of_bool_returns, set_speed_value_returns.
    + apply of_bool_returns, set_force_value_returns.
    + apply of_bool_returns, set_load_value_returns.
    + apply of_bool_returns, wait_for_task_completion_returns.
    + apply of_bool_returns, configure_gripper_open_returns.
    + apply of_bool_returns, configure_gripper_close_returns.
    + apply of_bool_returns, gripper_open_returns; assumption.
    + apply of_bool_returns, gripper_close_returns; assumption.
  - intros driver h. unfold result_of. rewrite wait_for_ready_run. split.
    + intros e ->. reflexivity.
    + intros ->. reflexivity.
Qed.

(** On a simulated page every wait that fails raises
    [TimeoutException], and the helper of the spec returns. *)
Lemma page_wait_only_times_out (p : Page) h l timeout e :
  wait_presence (browser_of p) h l timeout = Raise e ->
  e = TimeoutException.
Proof.
  simpl. unfold lookup_present.
  destruct (assoc locator_eqb l (present p));
    [discriminate|].
  intros E. injection E as <-. reflexivity.
Qed.

Lemma page_click_returns (p : Page) (element : Element) :
  returns (click_element_robust (spec_helper (browser_of p)) element).
Proof. intros h. exists tt. reflexivity. Qed.

Lemma hanging_host_only_times_out h argv timeout e :
  NetworkManager.subprocess_run hanging_host h argv timeout = Raise e ->
  isinstance e C_SubprocessError = true.
Proof. simpl. intros E. injection E as <-. reflexivity. Qed.

Lemma public_operations_return_booleans_witness :
  result_of (NetworkManager.invoke franka_config hanging_host
               NetworkManager.Op_configure_network) [] = Ok false /\
  result_of (invoke desk (spec_helper desk) Op_gripper_close) []
    = Ok (PyBool true) /\
  result_of (invoke desk (spec_helper desk) Op_wait_for_ready) []
    = Ok (PyBool true) /\
  result_of (invoke drifted_desk (spec_helper drifted_desk)
               (Op_configure_gripper_close 50 80 400)) [] = Ok (PyBool false) /\
  result_of (invoke desk (spec_helper desk)
               (Op_wait_for_element (XPATH, "//missing") 10000)) [] = Ok PyNone.
Proof.
  destruct public_operations_return_booleans as (Hnet & Hui & Hready).
  split.
  { destruct (Hnet franka_config hanging_host
                hanging_host_only_times_out
                NetworkManager.Op_configure_network []) as [b Hb].
    rewrite Hb. f_equal. vm_compute in Hb. injection Hb as <-. reflexivity. }
  pose proof (Hui desk (spec_helper desk)
                (fun h e => page_wait_only_times_out _ h ready_locator 30000 e)
                (fun ls t h => spec_try_multiple_locators_returns _ ls t h)
                (page_click_returns _)) as Hdesk.
  pose proof (Hui drifted_desk (spec_helper drifted_desk)
                (fun h e => page_wait_only_times_out _ h ready_locator 30000 e)
                (fun ls t h => spec_try_multiple_locators_returns _ ls t h)
                (page_click_returns _)) as Hdrift.
  split.
  { destruct (Hdesk Op_gripper_close []) as [b Hb].
    rewrite Hb. vm_compute in Hb. injection Hb as <-. reflexivity. }
  split.
  { destruct (Hready desk []) as [Hr _].
    specialize (Hr 1%nat eq_refl).
    unfold invoke, result_of, of_optional_bool, bind in *.
    destruct (wait_for_ready desk []) as [r evs]. simpl in Hr.
    subst r. reflexivity. }
  split.
  { destruct (Hdrift (Op_configure_gripper_close 50 80 400) []) as [b Hb].
    rewrite Hb. vm_compute in Hb. injection Hb as <-. reflexivity. }
  destruct (Hdesk (Op_wait_for_element (XPATH, "//missing") 10000) []) as [r Hr].
  rewrite Hr. vm_compute in Hr. destruct r; [discriminate Hr | reflexivity].
Defined.

(** The claim of C8 as it is worded fails twice.  [wait_for_element] is
    a public method and hands back the element it found, not a boolean.
    And with a browser session that is gone, the wait inside
    [wait_for_ready] raises a driver error that is not a timeout, which
    the single [except TimeoutException] clause lets through. *)
Lemma public_operations_counterexample :
  result_of (invoke desk (spec_helper desk)
               (Op_wait_for_element ready_locator 10000)) [] = Ok (PyElement 1%nat) /\
  result_of (invoke lost_session (spec_helper lost_session)
               Op_wait_for_ready) [] = Raise WebDriverException.
Proof. split; reflexivity. Qed.

End DriverFacts.

(** * Further properties *)

(** ** Network readiness checker *)

Module NetworkExtras.
Import NetworkManager Scenarios MoreScenarios.

Lemma configure_after_failed_check (config : Config) (host : Host) (h : History) :
  result_of (check_network_configured config host) h = Ok false ->
  configure_network config host h =
  (match subprocess_run host (h ++ [EvRun (check_argv config) 5]) (add_argv config) 10 with
   | Ok result => Ok (returncode result =? 0)
   | Raise _ => Ok false
   end,
   [EvRun (check_argv config) 5; EvRun (add_argv config) 10]).
Proof.
  intros Hc. unfold configure_network, bind.
  pose proof (NetworkFacts.check_calls config host h) as Hcalls.
  unfold result_of in Hc. unfold calls_of in Hcalls.
  destruct (check_network_configured config host h) as [r evs].
  simpl in Hc, Hcalls. subst r evs.
  unfold try_except, bind, run, call.
  destruct (subprocess_run host (h ++ [EvRun (check_argv config) 5]) (add_argv config) 10)
    as [result|e].
  - destruct (returncode result =? 0); reflexivity.
  - destruct e; reflexivity.
Qed.


(** X1: when the check reports "not configured", [configure_network]
    runs the inspection command and then the privileged add command with
    a timeout of 10 seconds, and its result is decided by that command
    alone: true exactly when it exits with code 0, false when it exits
    with another code, times out or fails in any other way.  Nothing is
    raised and the interface is not inspected again. *)
Theorem configure_network_adds_address (config : Config) (host : Host) (h : History) :
  result_of (check_network_configured config host) h = Ok false ->
  configure_network config host h =
  (match subprocess_run host (h ++ [EvRun (check_argv config) 5]) (add_argv config) 10 with
   | Ok result => Ok (returncode result =? 0)
   | Raise _ => Ok false
   end,
   [EvRun (check_argv config) 5; EvRun (add_argv config) 10]).
Proof. apply configure_after_failed_check. Qed.

Lemma configure_network_adds_address_witness :
  configure_network franka_config unconfigured_host [] =
    (Ok true,
     [EvRun ["ip"; "addr"; "show"; "eth0"] 5;
      EvRun ["sudo"; "ip"; "addr"; "add"; "172.16.0.1/24"; "dev"; "eth0"] 10]) /\
  result_of (configure_network franka_config refusing_host) [] = Ok false.
Proof.
  split.
  - apply (configure_network_adds_address franka_config unconfigured_host []).
    reflexivity.
  - unfold result_of.
    rewrite (configure_network_adds_address franka_config refusing_host [] eq_refl).
    reflexivity.
Defined.

(** X2: [configure_network] runs one or two commands.  The first is
    always the inspection command; the privileged add command is run
    only after the check has returned false, and never twice. *)
Theorem add_command_only_after_failed_check (config : Config) (host : Host) (h : History) :
  calls_of (configure_network config host) h = [EvRun (check_argv config) 5] \/
  (result_of (check_network_configured config host) h = Ok false /\
   calls_of (configure_network config host) h =
   [EvRun (check_argv config) 5; EvRun (add_argv config) 10]).
Proof.
  destruct (check_network_configured config host h) as [[[|]|e] evs] eqn:E.
  - left. unfold calls_of.
    rewrite (NetworkFacts.configure_when_configured config host h); [reflexivity|].
    unfold result_of. rewrite E. reflexivity.
  - right. assert (Hf : result_of (check_network_configured config host) h = Ok false).
    { unfold result_of. rewrite E. reflexivity. }
    split; [exact Hf|].
    unfold calls_of. rewrite (configure_after_failed_check config host h Hf).
    reflexivity.
  - left. pose proof (NetworkFacts.check_calls config host h) as Hcalls.
    unfold calls_of in *. unfold configure_network, bind. rewrite E in *.
    simpl in *. exact Hcalls.
Qed.

(** X3: [test_robot_connectivity] runs one command, two pings with a
    wait of three seconds each under a timeout of 10 seconds, and returns
    true exactly when it exits with code 0; a timeout and every other
    exception give false.  It never raises. *)
Theorem test_robot_connectivity_outcome (config : Config) (host : Host) (h : History) :
  test_robot_connectivity config host h =
  (match subprocess_run host h ["ping"; "-c"; "2"; "-W"; "3"; robot_ip config] 10 with
   | Ok result => Ok (returncode result =? 0)
   | Raise _ => Ok false
   end,
   [EvRun ["ping"; "-c"; "2"; "-W"; "3"; robot_ip config] 10]).
Proof.
  unfold test_robot_connectivity, try_except, bind, run, call, ping_argv.
  destruct (subprocess_run host h _ 10) as [result|e].
  - destruct (returncode result =? 0); reflexivity.
  - destruct e; reflexivity.
Qed.

End NetworkExtras.

(** ** Computations *)

Section EffectExtras.
Context {Event : Type}.

Lemma bind_inv {A B} (m : M (Event := Event) A) (f : A -> M B) (h : list Event) b evs :
  bind m f h = (Ok b, evs) ->
  exists a evs1 evs2,
    m h = (Ok a, evs1) /\ f a (h ++ evs1) = (Ok b, evs2) /\ evs = evs1 ++ evs2.
Proof.
  unfold bind. destruct (m h) as [[a|e] evs1]; [|discriminate].
  destruct (f a (h ++ evs1)) as [r evs2] eqn:Ef. intros E.
  injection E as -> <-. exists a, evs1, evs2. auto.
Qed.

(** A [try] whose only handler returns [v] has returned another value
    only if its body returned it. *)
Lemma try_except_inv {A} (m : M (Event := Event) A) classes (v b : A) (h : list Event) evs :
  try_except m [(classes, fun _ => ret v)] h = (Ok b, evs) ->
  b <> v ->
  m h = (Ok b, evs).
Proof.
  unfold try_except. destruct (m h) as [[a|e] evs1]; [auto|].
  simpl. destruct (existsb (isinstance e) classes); [|discriminate].
  unfold ret. intros E Hne. injection E as <- _. contradiction.
Qed.

Lemma run_script_succeeds (steps : list (M (Event := Event) bool)) (h : list Event) :
  all_succeed steps h ->
  run_script steps h = (Ok true, script_calls steps h).
Proof.
  revert h. induction steps as [|step rest IH]; intros h Hall; simpl in *.
  - reflexivity.
  - destruct Hall as [Hstep Hrest]. unfold bind.
    destruct (step h) as [r evs]. simpl in *. subst r. simpl.
    rewrite (IH _ Hrest). reflexivity.
Qed.

(** A script ends with failure at its first failing step: the steps
    after it are not run. *)
Lemma run_script_aborts (done : list (M (Event := Event) bool))
      (failing : M (Event := Event) bool) (rest : list (M (Event := Event) bool))
      (h : list Event) evs :
  all_succeed done h ->
  failing (h ++ script_calls done h) = (Ok false, evs) ->
  run_script (done ++ failing :: rest) h = (Ok false, script_calls done h ++ evs).
Proof.
  revert h. induction done as [|step done IH]; intros h Hall Hfail; simpl in *.
  - rewrite app_nil_r in Hfail. unfold bind. rewrite Hfail. simpl.
    rewrite app_nil_r. reflexivity.
  - destruct Hall as [Hstep Hrest]. unfold bind.
    destruct (step h) as [r evs0]. simpl in *. subst r. simpl.
    rewrite app_assoc in Hfail.
    rewrite (IH _ Hrest Hfail). rewrite app_assoc. reflexivity.
Qed.

Lemma run_script_true_inv (steps : list (M (Event := Event) bool)) (h : list Event) evs :
  run_script steps h = (Ok true, evs) ->
  all_succeed steps h /\ evs = script_calls steps h.
Proof.
  revert h evs. induction steps as [|step rest IH]; intros h evs E; simpl in *.
  - injection E as <-. auto.
  - apply bind_inv in E as (ok & evs1 & evs2 & Hs & Hr & ->).
    rewrite Hs. simpl. destruct ok; simpl in Hr; [|discriminate].
    destruct (IH _ _ Hr) as [Hall ->]. auto.
Qed.



Lemma try_except_ok {A} (m : M (Event := Event) A) clauses (h : list Event) a evs :
  m h = (Ok a, evs) -> try_except m clauses h = (Ok a, evs).
Proof. intros E. unfold try_except. rewrite E. reflexivity. Qed.

Lemma try_except_caught {A} (m : M (Event := Event) A) classes (v : A)
      (h : list Event) e evs :
  m h = (Raise e, evs) ->
  existsb (isinstance e) classes = true ->
  try_except m [(classes, fun _ => ret v)] h = (Ok v, evs).
Proof.
  intros E Hc. unfold try_except. rewrite E. simpl. rewrite Hc.
  unfold ret. rewrite app_nil_r. reflexivity.
Qed.

Lemma try_except_calls {A} (m : M (Event := Event) A) classes (v : A) (h : list Event) :
  snd (try_except m [(classes, fun _ => ret v)] h) = snd (m h).
Proof.
  unfold try_except. destruct (m h) as [[a|e] evs]; [reflexivity|].
  simpl. destruct (existsb (isinstance e) classes); [|reflexivity].
  simpl. apply app_nil_r.
Qed.

Lemma bind_calls {A B} (m : M (Event := Event) A) (f : A -> M B) (h : list Event) ev :
  In ev (snd (bind m f h)) ->
  In ev (snd (m h)) \/ exists a, In ev (snd (f a (h ++ snd (m h)))).
Proof.
  unfold bind. destruct (m h) as [[a|e] evs]; simpl; [|auto].
  destruct (f a (h ++ evs)) as [r evs'] eqn:Ef. simpl. intros Hin.
  apply in_app_or in Hin as [Hin|Hin]; [auto|].
  right. exists a. rewrite Ef. exact Hin.
Qed.

(** Every call of a loop is a call of one of its iterations or of the
    code after it. *)
Lemma for_each_calls {X R} (xs : list X) (body : X -> M (Event := Event) (option R))
      (after : M R) (h : list Event) ev :
  In ev (snd (for_each xs body after h)) ->
  (exists x h', In x xs /\ In ev (snd (body x h'))) \/
  (exists h', In ev (snd (after h'))).
Proof.
  revert h. induction xs as [|x xs IH]; intros h Hin; simpl in *.
  - right. exists h. exact Hin.
  - unfold bind in Hin. destruct (body x h) as [[[v|]|e] evs] eqn:Eb; simpl in Hin.
    + rewrite app_nil_r in Hin. left. exists x, h. rewrite Eb. auto.
    + destruct (for_each xs body after (h ++ evs)) as [r evs'] eqn:Ef. simpl in Hin.
      apply in_app_or in Hin as [Hin|Hin].
      * left. exists x, h. rewrite Eb. auto.
      * specialize (IH (h ++ evs)). rewrite Ef in IH.
        destruct (IH Hin) as [(y & h' & Hy & Hev)|Hafter]; [|right; exact Hafter].
        left. exists y, h'. auto.
    + left. exists x, h. rewrite Eb. auto.
Qed.

End EffectExtras.

(** ** UI command driver *)

Module DriverExtras.
Import RobotCommands Scenarios MoreScenarios Outcomes.

(** *** Task selection *)

Lemma select_task_attempt_click_raises (driver : Browser) (selenium : SeleniumHelper)
      (c : Element) (l : Locator) (h : History) (e : Element) (x : Exn) evs :
  elem_find_element driver h c l = Ok e ->
  click_element_robust selenium e (h ++ [EvElemFindElement c l]) = (Raise x, evs) ->
  select_task_attempt driver selenium c l h = (Ok None, EvElemFindElement c l :: evs).
Proof.
  intros Hf Hc.
  unfold select_task_attempt, try_except, bind, el_find_element, call, truthy.
  rewrite Hf, Hc. simpl. rewrite app_nil_r. reflexivity.
Qed.

(** X4: [select_task_from_list] returns false, without a click, when the
    task list is not found (then nothing is looked up in it) and when
    neither the exact-text nor the contains-text locator finds an entry
    (then both have been tried, in this order). *)
Theorem select_task_from_list_not_found (driver : Browser) (selenium : SeleniumHelper) :
  (forall task_name h evs_c,
      try_multiple_locators selenium task_container_locators 5000 h = (Ok None, evs_c) ->
      select_task_from_list driver selenium task_name h = (Ok false, evs_c)) /\
  (forall task_name c x1 x2 h evs_c,
      let exact := (XPATH, (".//span[text()='" ++ task_name ++ "']")%string) in
      let contains := (XPATH, (".//*[contains(text(), '" ++ task_name ++ "')]")%string) in
      try_multiple_locators selenium task_container_locators 5000 h = (Ok (Some c), evs_c) ->
      elem_find_element driver (h ++ evs_c) c exact = Raise x1 ->
      elem_find_element driver (h ++ evs_c ++ [EvElemFindElement c exact]) c contains
        = Raise x2 ->
      select_task_from_list driver selenium task_name h =
      (Ok false, evs_c ++ [EvElemFindElement c exact; EvElemFindElement c contains])).
Proof.
  split.
  - intros task_name h evs_c Hc. unfold select_task_from_list, bind.
    rewrite Hc. simpl. rewrite app_nil_r. reflexivity.
  - intros task_name c x1 x2 h evs_c exact contains Hc H1 H2.
    unfold select_task_from_list.
    apply bind_ok with (a := Some c); [exact Hc|].
    unfold select_task_loop, task_locators.
    rewrite (for_each_next _ _ _ _ _ [EvElemFindElement c exact]).
    2:{ eapply DriverFacts.select_task_attempt_missing. exact H1. }
    rewrite (for_each_next _ _ _ _ _ [EvElemFindElement c contains]).
    2:{ eapply DriverFacts.select_task_attempt_missing.
        rewrite <- app_assoc. exact H2. }
    reflexivity.
Qed.

Lemma select_task_from_list_not_found_witness :
  select_task_from_list desk_without_button (spec_helper desk_without_button)
    "Gripper_open" [] =
    (Ok false, attempts 5000 task_container_locators) /\
  select_task_from_list desk (spec_helper desk) "Gripper_shake" [] =
    (Ok false,
     [EvWaitPresence
        (XPATH, "/html/body/div[2]/section/section/one-library/div/div[1]/div[2]") 5000;
      EvElemFindElement 2%nat (XPATH, ".//span[text()='Gripper_shake']");
      EvElemFindElement 2%nat (XPATH, ".//*[contains(text(), 'Gripper_shake')]")]).
Proof.
  destruct (select_task_from_list_not_found desk_without_button
              (spec_helper desk_without_button)) as [Hmissing _].
  destruct (select_task_from_list_not_found desk (spec_helper desk)) as [_ Hnone].
  split.
  - apply Hmissing. reflexivity.
  - apply (Hnone "Gripper_shake" 2%nat NoSuchElementException NoSuchElementException []
             [EvWaitPresence
                (XPATH, "/html/body/div[2]/section/section/one-library/div/div[1]/div[2]")
                5000]); reflexivity.
Defined.


(** X5: an exception raised while clicking the entry found by the
    exact-text locator is swallowed: the contains-text locator is tried
    next, and the element it finds is clicked as well.  The function
    returns true when this second click succeeds and false when it raises
    too. *)
Theorem select_task_click_failure_falls_through
        (driver : Browser) (selenium : SeleniumHelper)
        (task_name : string) (c e1 e2 : Element) (x : Exn)
        (h : History) (evs_c evs1 : list Event) :
  let exact := (XPATH, (".//span[text()='" ++ task_name ++ "']")%string) in
  let contains := (XPATH, (".//*[contains(text(), '" ++ task_name ++ "')]")%string) in
  let h1 := h ++ evs_c ++ EvElemFindElement c exact :: evs1 in
  try_multiple_locators selenium task_container_locators 5000 h = (Ok (Some c), evs_c) ->
  elem_find_element driver (h ++ evs_c) c exact = Ok e1 ->
  click_element_robust selenium e1 (h ++ evs_c ++ [EvElemFindElement c exact])
    = (Raise x, evs1) ->
  elem_find_element driver h1 c contains = Ok e2 ->
  forall r evs2,
    click_element_robust selenium e2 (h1 ++ [EvElemFindElement c contains]) = (r, evs2) ->
    select_task_from_list driver selenium task_name h =
    (Ok (match r with Ok _ => true | Raise _ => false end),
     evs_c ++ EvElemFindElement c exact :: evs1 ++ EvElemFindElement c contains :: evs2).
Proof.
  intros exact contains h1 Hc Hf1 Hk1 Hf2 r evs2 Hk2.
  unfold select_task_from_list.
  apply bind_ok with (a := Some c); [exact Hc|].
  unfold select_task_loop, task_locators.
  rewrite (for_each_next _ _ _ _ _ (EvElemFindElement c exact :: evs1)).
  2:{ apply select_task_attempt_click_raises with (e := e1) (x := x); [exact Hf1|].
      rewrite <- app_assoc. exact Hk1. }
  assert (Eh : (h ++ evs_c) ++ EvElemFindElement c exact :: evs1 = h1).
  { unfold h1. rewrite <- app_assoc. reflexivity. }
  rewrite Eh. destruct r as [[]|y].
  - rewrite (for_each_return _ _ _ _ _ true (EvElemFindElement c contains :: evs2)).
    + reflexivity.
    + apply DriverFacts.select_task_attempt_found with (e := e2); assumption.
  - rewrite (for_each_next _ _ _ _ _ (EvElemFindElement c contains :: evs2)).
    + cbn [for_each ret fst snd]. rewrite app_nil_r. reflexivity.
    + apply select_task_attempt_click_raises with (e := e2) (x := y); assumption.
Qed.

Lemma select_task_click_failure_falls_through_witness :
  select_task_from_list stale_first_click_desk (spec_helper stale_first_click_desk)
    "Gripper_open" [] =
  (Ok true,
   [EvWaitPresence
      (XPATH, "/html/body/div[2]/section/section/one-library/div/div[1]/div[2]") 5000;
    EvElemFindElement 2%nat (XPATH, ".//span[text()='Gripper_open']");
    EvClick 5%nat;
    EvElemFindElement 2%nat (XPATH, ".//*[contains(text(), 'Gripper_open')]");
    EvClick 6%nat]).
Proof.
  apply (select_task_click_failure_falls_through
           stale_first_click_desk (spec_helper stale_first_click_desk)
           "Gripper_open" 2%nat 5%nat 6%nat WebDriverException []
           [EvWaitPresence
              (XPATH, "/html/body/div[2]/section/section/one-library/div/div[1]/div[2]")
              5000]
           [EvClick 5%nat]
           eq_refl eq_refl eq_refl eq_refl (Ok tt) [EvClick 6%nat] eq_refl).
Defined.

(** *** The gripper commands *)

(** The four steps the two gripper commands share. *)
Lemma gripper_close_after_wait (driver : Browser) (selenium : SeleniumHelper) (h : History) :
  gripper_close driver selenium h =
  (fst (run_script
          [select_task_from_list driver selenium "Gripper_close";
           click_execution_button selenium;
           click_confirm_button selenium;
           wait_for_task_completion driver selenium 30]
          (h ++ calls_of (wait_for_task_completion driver selenium 10) h)),
   calls_of (wait_for_task_completion driver selenium 10) h ++
   snd (run_script
          [select_task_from_list driver selenium "Gripper_close";
           click_execution_button selenium;
           click_confirm_button selenium;
           wait_for_task_completion driver selenium 30]
          (h ++ calls_of (wait_for_task_completion driver selenium 10) h))).
Proof.
  rewrite DriverFacts.gripper_close_script. unfold bind, calls_of.
  destruct (DriverFacts.wait_for_task_completion_returns driver selenium 10 h) as [b Hb].
  destruct (wait_for_task_completion driver selenium 10 h) as [r evs].
  simpl in Hb. subst r. cbv beta iota. cbn [fst snd].
  match goal with
  | |- context [run_script ?steps (h ++ evs)] => destruct (run_script steps (h ++ evs))
  end.
  reflexivity.
Qed.

(** X6: the gripper commands stop at their first failing step.  When the
    steps of [done] succeed in turn and the next step reports failure,
    [gripper_open] returns false having made the calls of these steps
    only; when all four steps succeed it returns true.  [gripper_close]
    does the same after its first wait, whose calls come first and whose
    result, true or false, changes nothing. *)
Theorem gripper_commands_stop_at_first_failure
        (driver : Browser) (selenium : SeleniumHelper) (h : History) :
  let open_steps :=
    [select_task_from_list driver selenium "Gripper_open";
     click_execution_button selenium;
     click_confirm_button selenium;
     wait_for_task_completion driver selenium 30] in
  let close_steps :=
    [select_task_from_list driver selenium "Gripper_close";
     click_execution_button selenium;
     click_confirm_button selenium;
     wait_for_task_completion driver selenium 30] in
  let waited := calls_of (wait_for_task_completion driver selenium 10) h in
  (forall done failing rest evs,
      open_steps = done ++ failing :: rest ->
      all_succeed done h ->
      failing (h ++ script_calls done h) = (Ok false, evs) ->
      gripper_open driver selenium h = (Ok false, script_calls done h ++ evs)) /\
  (all_succeed open_steps h ->
   gripper_open driver selenium h = (Ok true, script_calls open_steps h)) /\
  (forall done failing rest evs,
      close_steps = done ++ failing :: rest ->
      all_succeed done (h ++ waited) ->
      failing (h ++ waited ++ script_calls done (h ++ waited)) = (Ok false, evs) ->
      gripper_close driver selenium h =
      (Ok false, waited ++ script_calls done (h ++ waited) ++ evs)) /\
  (all_succeed close_steps (h ++ waited) ->
   gripper_close driver selenium h =
   (Ok true, waited ++ script_calls close_steps (h ++ waited))).
Proof.
  intros open_steps close_steps waited.
  split; [|split; [|split]].
  - intros done failing rest evs Hsplit Hall Hfail.
    rewrite DriverFacts.gripper_open_script. fold open_steps. rewrite Hsplit.
    apply run_script_aborts; assumption.
  - intros Hall. rewrite DriverFacts.gripper_open_script.
    apply run_script_succeeds. exact Hall.
  - intros done failing rest evs Hsplit Hall Hfail.
    rewrite gripper_close_after_wait. fold close_steps waited. rewrite Hsplit.
    rewrite (run_script_aborts done failing rest (h ++ waited) evs Hall).
    + reflexivity.
    + rewrite <- app_assoc. exact Hfail.
  - intros Hall. rewrite gripper_close_after_wait. fold close_steps waited.
    rewrite (run_script_succeeds close_steps (h ++ waited) Hall). reflexivity.
Qed.

Lemma gripper_commands_stop_at_first_failure_witness :
  gripper_open desk_without_confirm (spec_helper desk_without_confirm) [] =
    (Ok false,
     [EvWaitPresence
        (XPATH, "/html/body/div[2]/section/section/one-library/div/div[1]/div[2]") 5000;
      EvElemFindElement 2%nat (XPATH, ".//span[text()='Gripper_open']");
      EvClick 5%nat] ++
     attempts 5000 execution_locators ++ [EvClick 3%nat] ++
     attempts 10000 confirm_locators) /\
  result_of (gripper_open desk (spec_helper desk)) [] = Ok true /\
  result_of (gripper_close desk_without_button (spec_helper desk_without_button)) []
    = Ok false /\
  result_of (gripper_close busy_desk (spec_helper busy_desk)) [] = Ok true.
Proof.
  destruct (gripper_commands_stop_at_first_failure desk_without_confirm
              (spec_helper desk_without_confirm) []) as (Hstop & _).
  destruct (gripper_commands_stop_at_first_failure desk (spec_helper desk) [])
    as (_ & Hall & _).
  destruct (gripper_commands_stop_at_first_failure desk_without_button
              (spec_helper desk_without_button) []) as (_ & _ & Hcstop & _).
  destruct (gripper_commands_stop_at_first_failure busy_desk (spec_helper busy_desk) [])
    as (_ & _ & _ & Hcall).
  split.
  { rewrite (Hstop [select_task_from_list desk_without_confirm
                      (spec_helper desk_without_confirm) "Gripper_open";
                    click_execution_button (spec_helper desk_without_confirm)]
                   (click_confirm_button (spec_helper desk_without_confirm))
                   [wait_for_task_completion desk_without_confirm
                      (spec_helper desk_without_confirm) 30]
                   (attempts 10000 confirm_locators)).
    - reflexivity.
    - reflexivity.
    - simpl. split; [reflexivity|]. split; [reflexivity | exact I].
    - reflexivity. }
  split.
  { unfold result_of. rewrite Hall; [reflexivity|].
    vm_compute. repeat split. }
  split.
  { unfold result_of.
    rewrite (Hcstop [] (select_task_from_list desk_without_button
                          (spec_helper desk_without_button) "Gripper_close")
                    [click_execution_button (spec_helper desk_without_button);
                     click_confirm_button (spec_helper desk_without_button);
                     wait_for_task_completion desk_without_button
                       (spec_helper desk_without_button) 30]
                    (attempts 5000 task_container_locators)).
    - reflexivity.
    - reflexivity.
    - exact I.
    - vm_compute. reflexivity. }
  unfold result_of. rewrite Hcall; [reflexivity|].
  vm_compute. repeat split.
Defined.


(** *** The Continue button *)

Section ContinueButton.
Variable driver : Browser.

Let found_container : Event := EvWaitPresence (XPATH, container_xpath) 10000.


Lemma wait_for_element_run (l : Locator) (timeout : Z) (h : History) :
  wait_for_element driver l timeout h =
  (match wait_presence driver h l timeout with
   | Ok e => Ok (Some e)
   | Raise _ => Ok None
   end, [EvWaitPresence l timeout]).
Proof.
  unfold wait_for_element, try_except, bind, until_presence, call.
  destruct (wait_presence driver h l timeout); reflexivity.
Qed.

(** Where [click_continue_button] gets to once the container and its
    buttons are found. *)
Lemma click_continue_button_buttons (c : Element) (bs : list Element) (h : History) :
  wait_presence driver h (XPATH, container_xpath) 10000 = Ok c ->
  elem_find_elements driver (h ++ [found_container]) c (TAG_NAME, "button") = Ok bs ->
  forall r evs,
    for_each bs (continue_attempt driver) (ret false)
             (h ++ [found_container; EvElemFindElements c (TAG_NAME, "button")])
    = (Ok r, evs) ->
    click_continue_button driver h =
    (Ok r, found_container :: EvElemFindElements c (TAG_NAME, "button") :: evs).
Proof.
  intros Hw Hf r evs Hloop.
  unfold click_continue_button. apply try_except_ok.
  apply bind_ok with (a := Some c) (evs := [found_container])
                     (evs' := EvElemFindElements c (TAG_NAME, "button") :: evs).
  - rewrite wait_for_element_run, Hw. reflexivity.
  - apply bind_ok with (a := bs) (evs := [EvElemFindElements c (TAG_NAME, "button")]).
    + unfold el_find_elements, call. rewrite Hf. reflexivity.
    + rewrite <- app_assoc. exact Hloop.
Qed.

End ContinueButton.


(** X7: [click_continue_button] returns false, and clicks nothing, when
    the button container does not appear within 10 seconds (then no
    button is looked for), when the container holds no button, and when
    listing its buttons raises. *)
Theorem click_continue_button_nothing_to_click (driver : Browser) (h : History) :
  let found := EvWaitPresence (XPATH, container_xpath) 10000 in
  (forall x,
      wait_presence driver h (XPATH, container_xpath) 10000 = Raise x ->
      click_continue_button driver h = (Ok false, [found])) /\
  (forall c,
      wait_presence driver h (XPATH, container_xpath) 10000 = Ok c ->
      elem_find_elements driver (h ++ [found]) c (TAG_NAME, "button") = Ok [] ->
      click_continue_button driver h =
      (Ok false, [found; EvElemFindElements c (TAG_NAME, "button")])) /\
  (forall c x,
      wait_presence driver h (XPATH, container_xpath) 10000 = Ok c ->
      elem_find_elements driver (h ++ [found]) c (TAG_NAME, "button") = Raise x ->
      click_continue_button driver h =
      (Ok false, [found; EvElemFindElements c (TAG_NAME, "button")])).
Proof.
  intro found. split; [|split].
  - intros x Hw. unfold click_continue_button. apply try_except_ok.
    unfold bind. rewrite wait_for_element_run, Hw. reflexivity.
  - intros c Hw Hf.
    apply (click_continue_button_buttons driver c [] h Hw Hf false []).
    reflexivity.
  - intros c x Hw Hf. unfold click_continue_button.
    apply try_except_caught with (e := x); [|reflexivity].
    unfold bind. rewrite wait_for_element_run, Hw. cbv beta iota.
    unfold el_find_elements, call. cbn [app]. fold found. rewrite Hf. reflexivity.
Qed.

Lemma click_continue_button_nothing_to_click_witness :
  click_continue_button desk_without_button [] =
    (Ok false, [EvWaitPresence (XPATH, container_xpath) 10000]) /\
  click_continue_button lost_session [] =
    (Ok false, [EvWaitPresence (XPATH, container_xpath) 10000]).
Proof.
  destruct (click_continue_button_nothing_to_click desk_without_button []) as [H1 _].
  destruct (click_continue_button_nothing_to_click lost_session []) as [H2 _].
  split.
  - apply (H1 TimeoutException). reflexivity.
  - apply (H2 WebDriverException). reflexivity.
Defined.





(** Case analysis on the next answer of the browser in the goal. *)
Ltac next_answer :=
  match goal with
  | |- context [match text ?d ?h ?b with Ok _ => _ | Raise _ => _ end] =>
      destruct (text d h b) eqn:?
  | |- context [match is_displayed ?d ?h ?b with Ok _ => _ | Raise _ => _ end] =>
      destruct (is_displayed d h b) eqn:?
  | |- context [match is_enabled ?d ?h ?b with Ok _ => _ | Raise _ => _ end] =>
      destruct (is_enabled d h b) eqn:?
  | |- context [match click ?d ?h ?b with Ok _ => _ | Raise _ => _ end] =>
      destruct (click d h b) eqn:?
  | |- context [match execute_script ?d ?h ?s ?b with Ok _ => _ | Raise _ => _ end] =>
      destruct (execute_script d h s b) eqn:?
  | |- context [if ?c then _ else _] => destruct c eqn:?
  end; cbn.

(** A click, direct or through the script, made while a button is looked
    at is a click on that button, and the button has shown a text with
    "continue" in it and has been reported displayed and enabled. *)
Lemma continue_attempt_click_justified (driver : Browser) (b b' : Element)
      (h : History) (ev : Event) :
  In ev (snd (continue_attempt driver b h)) ->
  ev = EvClick b' \/ (exists script, ev = EvExecuteScript script b') ->
  b' = b /\
  exists t h1 h2 h3,
    PyStr.str_in "continue" (PyStr.lower (PyStr.strip t)) = true /\
    text driver h1 b = Ok t /\
    is_displayed driver h2 b = Ok true /\
    is_enabled driver h3 b = Ok true.
Proof.
  unfold continue_attempt. rewrite try_except_calls.
  unfold try_except, bind, el_text, el_is_displayed, el_is_enabled, el_click,
    driver_execute_script, call, ret.
  repeat next_answer.
  all: intros Hin [E|[s E]]; subst ev.
  all: repeat (destruct Hin as [Hin|Hin]; [try discriminate Hin|]); try contradiction.
  all: injection Hin; intros; subst.
  all: split; [reflexivity|].
  all: do 4 eexists; split; [eassumption|]; split; [eassumption|]; split; eassumption.
Qed.

(** X10: [click_continue_button] clicks, directly or through the script,
    no element but a button of the container whose text, stripped and in
    lower case, contained "continue" and which the browser reported
    displayed and enabled.  It never clicks another button, a hidden one
    or a disabled one. *)
Theorem click_continue_button_clicks_only_continue
        (driver : Browser) (h : History) (ev : Event) (b : Element) :
  In ev (calls_of (click_continue_button driver) h) ->
  ev = EvClick b \/ (exists script, ev = EvExecuteScript script b) ->
  exists t h1 h2 h3,
    PyStr.str_in "continue" (PyStr.lower (PyStr.strip t)) = true /\
    text driver h1 b = Ok t /\
    is_displayed driver h2 b = Ok true /\
    is_enabled driver h3 b = Ok true.
Proof.
  intros Hin Hev. unfold calls_of, click_continue_button in Hin.
  rewrite try_except_calls in Hin.
  apply bind_calls in Hin as [Hin|[container Hin]].
  { rewrite wait_for_element_run in Hin. simpl in Hin.
    destruct Hin as [<-|[]]. destruct Hev as [E|[s E]]; discriminate E. }
  destruct container as [c|]; [|destruct Hin].
  apply bind_calls in Hin as [Hin|[bs Hin]].
  { simpl in Hin. destruct Hin as [<-|[]]. destruct Hev as [E|[s E]]; discriminate E. }
  apply for_each_calls in Hin as [(x & h' & _ & Hx)|[h' []]].
  destruct (continue_attempt_click_justified driver x b h' ev Hx Hev) as [-> Hj].
  exact Hj.
Qed.

Lemma click_continue_button_clicks_only_continue_witness :
  In (EvClick 10%nat) (calls_of (click_continue_button desk) []) /\
  ~ In (EvClick 9%nat) (calls_of (click_continue_button desk) []) /\
  ~ In (EvClick 10%nat) (calls_of (click_continue_button hidden_desk) []) /\
  exists t h1 h2 h3,
    PyStr.str_in "continue" (PyStr.lower (PyStr.strip t)) = true /\
    text desk h1 10%nat = Ok t /\
    is_displayed desk h2 10%nat = Ok true /\
    is_enabled desk h3 10%nat = Ok true.
Proof.
  assert (Hin : In (EvClick 10%nat) (calls_of (click_continue_button desk) [])).
  { vm_compute. tauto. }
  split; [exact Hin|].
  split.
  { intros H9.
    destruct (click_continue_button_clicks_only_continue desk [] _ 9%nat H9
                (or_introl eq_refl)) as (t & h1 & _ & _ & Hc & Ht & _).
    simpl in Ht. injection Ht as <-. discriminate Hc. }
  split.
  { intros H10.
    destruct (click_continue_button_clicks_only_continue hidden_desk [] _ 10%nat H10
                (or_introl eq_refl)) as (_ & _ & h2 & _ & _ & _ & Hd & _).
    discriminate Hd. }
  exact (click_continue_button_clicks_only_continue desk [] _ 10%nat Hin
           (or_introl eq_refl)).
Defined.


(** *** The value setters *)

Section Setters.
Variable driver : Browser.

Lemma set_force_value_outcome (force : Z) (h : History) :
  set_force_value driver force h = typing_outcome driver force_input_xpath force h.
Proof.
  unfold set_force_value, typing_outcome, try_except, bind, wait_for_element,
    try_except, bind, until_presence, el_click, actions_perform, call, ret.
  destruct (wait_presence driver h _ 15000) as [e|x]; cbn; [|reflexivity].
  destruct (click driver _ e) as [u|x]; cbn; [|reflexivity].
  rewrite <- app_assoc. cbn [app].
  destruct (perform driver _ _) as [u'|x]; reflexivity.
Qed.

Lemma set_load_value_outcome (load : Z) (h : History) :
  set_load_value driver load h = typing_outcome driver load_input_xpath load h.
Proof.
  unfold set_load_value, typing_outcome, try_except, bind, wait_for_element,
    try_except, bind, until_presence, el_click, actions_perform, call, ret.
  destruct (wait_presence driver h _ 15000) as [e|x]; cbn; [|reflexivity].
  destruct (click driver _ e) as [u|x]; cbn; [|reflexivity].
  rewrite <- app_assoc. cbn [app].
  destruct (perform driver _ _) as [u'|x]; reflexivity.
Qed.

Lemma set_speed_value_outcome (speed : Z) (h : History) :
  10 <= speed <= 100 ->
  set_speed_value driver speed h = typing_outcome driver speed_input_xpath speed h.
Proof.
  intros [Hlo Hhi]. apply Z.leb_le in Hlo, Hhi.
  unfold set_speed_value. rewrite Hlo, Hhi. cbn [andb negb].
  unfold typing_outcome, try_except, bind, wait_for_element,
    try_except, bind, until_presence, el_click, actions_perform, call, ret.
  destruct (wait_presence driver h _ 15000) as [e|x]; cbn; [|reflexivity].
  destruct (click driver _ e) as [u|x]; cbn; [|reflexivity].
  rewrite <- app_assoc. cbn [app].
  destruct (perform driver _ _) as [u'|x]; reflexivity.
Qed.

Lemma typing_outcome_true (xpath : string) (value : Z) (h : History) :
  fst (typing_outcome driver xpath value h) = Ok true ->
  exists element,
    snd (typing_outcome driver xpath value h) =
    [EvWaitPresence (XPATH, xpath) 15000; EvClick element; EvPerform (type_value value)].
Proof.
  unfold typing_outcome.
  destruct (wait_presence driver h _ 15000) as [e|x]; cbn; [|discriminate].
  destruct (click driver _ e) as [u|x]; cbn; [|discriminate].
  intros _. exists e. reflexivity.
Qed.

End Setters.


(** X11: the three setters share one course once past the range check
    of [set_speed_value]: wait up to 15 seconds for the field and return
    false when it does not appear, clicking nothing; click it and return
    false when the click raises, typing nothing; then send Ctrl+A, the
    decimal string of the value and Enter as one key sequence and return
    true when it succeeds, false when it raises.  No exception leaves
    them. *)
Theorem setters_outcome (driver : Browser) :
  (forall speed h,
      10 <= speed <= 100 ->
      set_speed_value driver speed h = typing_outcome driver speed_input_xpath speed h) /\
  (forall force h,
      set_force_value driver force h = typing_outcome driver force_input_xpath force h) /\
  (forall load h,
      set_load_value driver load h = typing_outcome driver load_input_xpath load h).
Proof.
  split; [|split].
  - intros speed h. apply set_speed_value_outcome.
  - intros force h. apply set_force_value_outcome.
  - intros load h. apply set_load_value_outcome.
Qed.

Lemma setters_outcome_witness :
  set_speed_value desk 50 [] =
    (Ok true,
     [EvWaitPresence (XPATH, speed_input_xpath) 15000; EvClick 11%nat;
      EvPerform [key_down CONTROL; send_keys "a"; key_up CONTROL;
                 send_keys "50"; send_key ENTER]]) /\
  set_speed_value dead_keyboard_desk 50 [] =
    (Ok false,
     [EvWaitPresence (XPATH, speed_input_xpath) 15000; EvClick 11%nat;
      EvPerform (type_value 50)]) /\
  set_force_value overlaid_desk 80 [] =
    (Ok false, [EvWaitPresence (XPATH, force_input_xpath) 15000; EvClick 12%nat]) /\
  set_load_value desk_without_button 400 [] =
    (Ok false, [EvWaitPresence (XPATH, load_input_xpath) 15000]).
Proof.
  destruct (setters_outcome desk) as (Hspeed & _).
  destruct (setters_outcome dead_keyboard_desk) as (Hdead & _).
  destruct (setters_outcome overlaid_desk) as (_ & Hforce & _).
  destruct (setters_outcome desk_without_button) as (_ & _ & Hload).
  split; [rewrite Hspeed; [reflexivity | lia]|].
  split; [rewrite Hdead; [reflexivity | lia]|].
  split; [rewrite Hforce; reflexivity|].
  rewrite Hload. reflexivity.
Defined.

Lemma setters_true_typed (driver : Browser) (value : Z) (h : History) :
  (result_of (set_speed_value driver value) h = Ok true ->
   10 <= value <= 100 /\
   exists element,
     calls_of (set_speed_value driver value) h =
     [EvWaitPresence (XPATH, speed_input_xpath) 15000; EvClick element;
      EvPerform (type_value value)]) /\
  (result_of (set_force_value driver value) h = Ok true ->
   exists element,
     calls_of (set_force_value driver value) h =
     [EvWaitPresence (XPATH, force_input_xpath) 15000; EvClick element;
      EvPerform (type_value value)]) /\
  (result_of (set_load_value driver value) h = Ok true ->
   exists element,
     calls_of (set_load_value driver value) h =
     [EvWaitPresence (XPATH, load_input_xpath) 15000; EvClick element;
      EvPerform (type_value value)]).
Proof.
  unfold result_of, calls_of. split; [|split].
  - intros Htrue.
    assert (Hin : 10 <= value <= 100).
    { destruct (Z_le_dec 10 value) as [Hlo|Hlo];
        [destruct (Z_le_dec value 100) as [Hhi|Hhi]; [lia|]|];
        rewrite (DriverFacts.set_speed_value_out_of_range driver value h) in Htrue
          by lia; discriminate Htrue. }
    split; [exact Hin|].
    rewrite (set_speed_value_outcome driver value h Hin) in *.
    apply typing_outcome_true. exact Htrue.
  - rewrite set_force_value_outcome. apply typing_outcome_true.
  - rewrite set_load_value_outcome. apply typing_outcome_true.
Qed.


(** X12: a setter returns true only after it has typed the value: its
    calls are then exactly the wait for its field, one click on the
    element found and the key sequence of the value; for
    [set_speed_value] the speed is then within [10,100]. *)
Theorem setters_true_only_after_typing (driver : Browser) (value : Z) (h : History) :
  (result_of (set_speed_value driver value) h = Ok true ->
   10 <= value <= 100 /\
   exists element,
     calls_of (set_speed_value driver value) h =
     [EvWaitPresence (XPATH, speed_input_xpath) 15000; EvClick element;
      EvPerform (type_value value)]) /\
  (result_of (set_force_value driver value) h = Ok true ->
   exists element,
     calls_of (set_force_value driver value) h =
     [EvWaitPresence (XPATH, force_input_xpath) 15000; EvClick element;
      EvPerform (type_value value)]) /\
  (result_of (set_load_value driver value) h = Ok true ->
   exists element,
     calls_of (set_load_value driver value) h =
     [EvWaitPresence (XPATH, load_input_xpath) 15000; EvClick element;
      EvPerform (type_value value)]).
Proof. apply setters_true_typed. Qed.

Lemma setters_true_only_after_typing_witness :
  result_of (set_force_value desk 80) [] = Ok true /\
  calls_of (set_force_value desk 80) [] =
    [EvWaitPresence (XPATH, force_input_xpath) 15000; EvClick 12%nat;
     EvPerform (type_value 80)].
Proof.
  split; [reflexivity|].
  destruct (setters_true_only_after_typing desk 80 []) as (_ & Hforce & _).
  destruct (Hforce eq_refl) as [element Hcalls].
  rewrite Hcalls. vm_compute in Hcalls. injection Hcalls as <-. reflexivity.
Defined.

(** *** Waiting *)

(** X13: [wait_for_ready] makes one wait of 30 seconds for the Ready
    text.  It returns true exactly when the wait returns an element and
    false exactly when the wait raises [TimeoutException]; every other
    exception of the wait leaves it.  The path that ends without a
    [return] is never taken: the result is never [None]. *)
Theorem wait_for_ready_outcome (driver : Browser) (h : History) :
  calls_of (wait_for_ready driver) h = [EvWaitPresence ready_locator 30000] /\
  result_of (wait_for_ready driver) h <> Ok None /\
  (result_of (wait_for_ready driver) h = Ok (Some true) <->
   exists e, wait_presence driver h ready_locator 30000 = Ok e) /\
  (result_of (wait_for_ready driver) h = Ok (Some false) <->
   wait_presence driver h ready_locator 30000 = Raise TimeoutException) /\
  (forall x, x <> TimeoutException ->
             wait_presence driver h ready_locator 30000 = Raise x ->
             result_of (wait_for_ready driver) h = Raise x).
Proof.
  unfold calls_of, result_of. rewrite DriverFacts.wait_for_ready_run. cbn [fst snd].
  destruct (wait_presence driver h ready_locator 30000) as [e|x].
  - split; [reflexivity|]. split; [discriminate|].
    split; [split; [intros _; exists e; reflexivity | reflexivity]|].
    split; [split; discriminate|].
    intros x _ Hx. discriminate Hx.
  - split; [reflexivity|].
    split; [destruct x; discriminate|].
    split; [split; [destruct x; discriminate | intros [e He]; discriminate He]|].
    split.
    + split; [destruct x; try discriminate; reflexivity|].
      intros E. injection E as ->. reflexivity.
    + intros y Hy E. injection E as ->. destruct y; try reflexivity. contradiction.
Qed.

Lemma wait_for_ready_outcome_witness :
  wait_for_ready desk [] = (Ok (Some true), [EvWaitPresence ready_locator 30000]) /\
  wait_for_ready blank_desk [] = (Ok (Some false), [EvWaitPresence ready_locator 30000]) /\
  wait_for_ready lost_session [] =
    (Raise WebDriverException, [EvWaitPresence ready_locator 30000]).
Proof.
  destruct (wait_for_ready_outcome desk []) as (C1 & _ & [_ T1] & _).
  destruct (wait_for_ready_outcome blank_desk []) as (C2 & _ & _ & [_ F2] & _).
  destruct (wait_for_ready_outcome lost_session []) as (C3 & _ & _ & _ & R3).
  unfold result_of, calls_of in *.
  split; [|split].
  - destruct (wait_for_ready desk []) as [r evs]. cbn [fst snd] in *.
    rewrite C1, T1; [reflexivity | exists 1%nat; reflexivity].
  - destruct (wait_for_ready blank_desk []) as [r evs]. cbn [fst snd] in *.
    rewrite C2, F2; reflexivity.
  - destruct (wait_for_ready lost_session []) as [r evs]. cbn [fst snd] in *.
    rewrite C3, (R3 WebDriverException); [reflexivity | discriminate | reflexivity].
Defined.

(** X15: with a timeout of zero or less [wait_for_task_completion] makes
    no polling iteration: it returns false at once, without a call to the
    browser and without a sleep. *)
Theorem wait_for_task_completion_without_time
        (driver : Browser) (selenium : SeleniumHelper) (timeout : Z) (h : History) :
  timeout <= 0 ->
  wait_for_task_completion driver selenium timeout h = (Ok false, []).
Proof.
  intros Hneg. unfold wait_for_task_completion, range.
  replace (Z.to_nat (timeout * 2)) with 0%nat by lia.
  reflexivity.
Qed.

Lemma wait_for_task_completion_without_time_witness :
  wait_for_task_completion desk (spec_helper desk) 0 [] = (Ok false, []) /\
  wait_for_task_completion desk (spec_helper desk) (-5) [] = (Ok false, []).
Proof.
  split.
  - apply (wait_for_task_completion_without_time desk (spec_helper desk) 0 []). lia.
  - apply (wait_for_task_completion_without_time desk (spec_helper desk) (-5) []). lia.
Defined.


(** *** The configuration commands *)

(** One successful step of a script that has returned true. *)
Ltac script_step H Hstep :=
  let ok := fresh "ok" in
  let evs1 := fresh "evs" in
  let evs2 := fresh "evs" in
  let E := fresh "E" in
  apply bind_inv in H as (ok & evs1 & evs2 & Hstep & H & E);
  destruct ok; cbn [negb] in H; [|discriminate H].

(** X14: [configure_gripper_open] has no range check of its own before
    the browser is touched: for a speed outside [10,100] it still starts
    with the poll for a task in flight, and it never returns true; the
    speed is rejected only by [set_speed_value], after the task has been
    selected and its dialog opened. *)
Theorem configure_gripper_open_out_of_range
        (driver : Browser) (selenium : SeleniumHelper) (speed : Z) (h : History) :
  ~ (10 <= speed <= 100) ->
  result_of (configure_gripper_open driver selenium speed) h = Ok false /\
  exists rest,
    calls_of (configure_gripper_open driver selenium speed) h =
    EvFindElement ready_locator :: rest.
Proof.
  intros Hout. split.
  - destruct (DriverFacts.configure_gripper_open_returns driver selenium speed h)
      as [[|] Hb]; [|exact Hb].
    exfalso. unfold result_of in *.
    destruct (configure_gripper_open driver selenium speed h) as [r evs] eqn:E.
    simpl in Hb. subst r.
    unfold configure_gripper_open in E.
    apply try_except_inv in E; [|discriminate].
    apply bind_inv in E as (waited & evs0 & evs1 & _ & E & _).
    script_step E Hselected. script_step E Hopened. script_step E Hadvanced.
    apply bind_inv in E as (speed_set & ? & ? & Hspeed & E & _).
    rewrite (DriverFacts.set_speed_value_out_of_range driver speed _ Hout) in Hspeed.
    injection Hspeed as <- _. discriminate E.
  - unfold calls_of, configure_gripper_open.
    apply begins_with_try_except, begins_with_bind.
    apply DriverFacts.wait_for_task_completion_begins. lia.
Qed.

Lemma configure_gripper_open_out_of_range_witness :
  result_of (configure_gripper_open desk (spec_helper desk) 5) [] = Ok false /\
  In (EvClick 7%nat) (calls_of (configure_gripper_open desk (spec_helper desk) 5) []) /\
  ~ In (EvWaitPresence (XPATH, speed_input_xpath) 15000)
       (calls_of (configure_gripper_open desk (spec_helper desk) 5) []).
Proof.
  split.
  - apply (configure_gripper_open_out_of_range desk (spec_helper desk) 5 []). lia.
  - split; [vm_compute; tauto|].
    vm_compute. intuition discriminate.
Defined.

(** X16: [configure_gripper_close] returns true only when the three
    values are within their intervals and it has typed all three of them
    into the dialog, the speed first, then the force, then the load. *)
Theorem configure_gripper_close_true_has_typed
        (driver : Browser) (selenium : SeleniumHelper)
        (speed force load : Z) (h : History) :
  result_of (configure_gripper_close driver selenium speed force load) h = Ok true ->
  (10 <= speed <= 100 /\ 20 <= force <= 100 /\ 10 <= load <= 1000) /\
  exists before between1 between2 after,
    calls_of (configure_gripper_close driver selenium speed force load) h =
    before ++ EvPerform (type_value speed) ::
    between1 ++ EvPerform (type_value force) ::
    between2 ++ EvPerform (type_value load) :: after.
Proof.
  intros Htrue.
  assert (Hin : 10 <= speed <= 100 /\ 20 <= force <= 100 /\ 10 <= load <= 1000).
  { destruct (Z_le_dec 10 speed); destruct (Z_le_dec speed 100);
      destruct (Z_le_dec 20 force); destruct (Z_le_dec force 100);
      destruct (Z_le_dec 10 load); destruct (Z_le_dec load 1000);
      try (repeat split; assumption);
      unfold result_of in Htrue;
      rewrite (DriverFacts.configure_gripper_close_out_of_range
                 driver selenium speed force load h) in Htrue by lia;
      discriminate Htrue. }
  split; [exact Hin|].
  destruct Hin as (Hs & Hf & Hl).
  unfold result_of, calls_of in *.
  rewrite (DriverFacts.configure_gripper_close_in_range
             driver selenium speed force load h Hs Hf Hl) in *.
  destruct (configure_gripper_close_steps driver selenium speed force load h)
    as [r evs] eqn:E.
  simpl in Htrue. subst r. cbn [snd].
  unfold configure_gripper_close_steps in E.
  apply try_except_inv in E; [|discriminate].
  apply bind_inv in E as (waited & evs0 & evs1 & _ & E & ->).
  script_step E Hselected. script_step E Hopened. script_step E Hskipped.
  script_step E Hspeed. script_step E Hcont1.
  script_step E Hforce. script_step E Hcont2.
  script_step E Hload. script_step E Hcont3.
  subst.
  pose proof (setters_true_typed driver speed) as Ts.
  pose proof (setters_true_typed driver force) as Tf.
  pose proof (setters_true_typed driver load) as Tl.
  unfold result_of, calls_of in Ts, Tf, Tl.
  match type of Hspeed with
  | set_speed_value _ _ ?hs = _ =>
      destruct (Ts hs) as (Ts' & _); rewrite Hspeed in Ts';
      destruct (Ts' eq_refl) as (_ & es & Es); cbn [snd] in Es
  end.
  match type of Hforce with
  | set_force_value _ _ ?hf = _ =>
      destruct (Tf hf) as (_ & Tf' & _); rewrite Hforce in Tf';
      destruct (Tf' eq_refl) as (ef & Ef); cbn [snd] in Ef
  end.
  match type of Hload with
  | set_load_value _ _ ?hl = _ =>
      destruct (Tl hl) as (_ & _ & Tl'); rewrite Hload in Tl';
      destruct (Tl' eq_refl) as (el & El); cbn [snd] in El
  end.
  subst.
  match goal with
  | |- exists _ _ _ _,
        ?a ++ ?b ++ ?c ++ ?d ++ [?w1; ?c1; _] ++ ?e ++ [?w2; ?c2; _] ++
        ?f ++ [?w3; ?c3; _] ++ ?g = _ =>
      exists (a ++ b ++ c ++ d ++ [w1; c1]), (e ++ [w2; c2]), (f ++ [w3; c3]), g
  end.
  rewrite <- !app_assoc. cbn [app]. reflexivity.
Qed.


Lemma configure_gripper_close_true_has_typed_witness :
  result_of (configure_gripper_close desk (spec_helper desk) 50 80 400) [] = Ok true /\
  exists before between1 between2 after,
    calls_of (configure_gripper_close desk (spec_helper desk) 50 80 400) [] =
    before ++ EvPerform (type_value 50) ::
    between1 ++ EvPerform (type_value 80) ::
    between2 ++ EvPerform (type_value 400) :: after.
Proof.
  assert (Htrue : result_of (configure_gripper_close desk (spec_helper desk) 50 80 400) []
                  = Ok true) by (vm_compute; reflexivity).
  split; [exact Htrue|].
  exact (proj2 (configure_gripper_close_true_has_typed desk (spec_helper desk)
                  50 80 400 [] Htrue)).
Defined.

(** *** Success of the gripper commands *)

(** The poll returns true only if one of its iterations has observed the
    idle state. *)
Lemma wait_for_task_completion_true_idle
      (driver : Browser) (selenium : SeleniumHelper) (timeout : Z) (h : History) :
  fst (wait_for_task_completion driver selenium timeout h) = Ok true ->
  exists k, (k < Z.to_nat (timeout * 2))%nat /\
            observes_idle driver selenium (poll_history driver selenium k h).
Proof.
  intros Htrue. rewrite DriverFacts.wait_for_task_completion_unfold in Htrue.
  destruct (DriverFacts.poll_first_or_none driver selenium (Z.to_nat (timeout * 2)) h)
    as [(k & Hk & _ & Hidle)|Hnone].
  - exists k. auto.
  - rewrite (DriverFacts.poll_loop_exhausted _ _ _ 0 h Hnone) in Htrue.
    discriminate Htrue.
Qed.

(** X17: [gripper_open] and [gripper_close] return true only when every
    step has succeeded: the task was selected, the execution button and
    the CONFIRM button were found and clicked, and then, within 60 polling
    iterations, one iteration found the Ready text and the execution
    button without "stop" in its class and text. *)
Theorem gripper_success_means_idle
        (driver : Browser) (selenium : SeleniumHelper) (h : History) :
  (result_of (gripper_open driver selenium) h = Ok true ->
   let started :=
     script_calls [select_task_from_list driver selenium "Gripper_open";
                   click_execution_button selenium;
                   click_confirm_button selenium] h in
   all_succeed [select_task_from_list driver selenium "Gripper_open";
                click_execution_button selenium;
                click_confirm_button selenium] h /\
   exists k, (k < 60)%nat /\
             observes_idle driver selenium
               (poll_history driver selenium k (h ++ started))) /\
  (result_of (gripper_close driver selenium) h = Ok true ->
   let waited := calls_of (wait_for_task_completion driver selenium 10) h in
   let started :=
     script_calls [select_task_from_list driver selenium "Gripper_close";
                   click_execution_button selenium;
                   click_confirm_button selenium] (h ++ waited) in
   all_succeed [select_task_from_list driver selenium "Gripper_close";
                click_execution_button selenium;
                click_confirm_button selenium] (h ++ waited) /\
   exists k, (k < 60)%nat /\
             observes_idle driver selenium
               (poll_history driver selenium k (h ++ waited ++ started))).
Proof.
  assert (Hsteps : forall name h0,
             fst (run_script
                    [select_task_from_list driver selenium name;
                     click_execution_button selenium;
                     click_confirm_button selenium;
                     wait_for_task_completion driver selenium 30] h0) = Ok true ->
             all_succeed [select_task_from_list driver selenium name;
                          click_execution_button selenium;
                          click_confirm_button selenium] h0 /\
             exists k, (k < 60)%nat /\
               observes_idle driver selenium
                 (poll_history driver selenium k
                    (h0 ++ script_calls
                             [select_task_from_list driver selenium name;
                              click_execution_button selenium;
                              click_confirm_button selenium] h0))).
  { intros name h0 Htrue.
    destruct (run_script _ h0) as [r evs] eqn:E. simpl in Htrue. subst r.
    apply run_script_true_inv in E as [Hall _].
    cbn [all_succeed] in Hall. destruct Hall as (H1 & H2 & H3 & H4 & _).
    split; [cbn [all_succeed]; auto|].
    apply wait_for_task_completion_true_idle in H4.
    destruct H4 as (k & Hk & Hidle). exists k. split; [exact Hk|].
    cbn [script_calls]. rewrite app_nil_r, !app_assoc. exact Hidle. }
  split.
  - intros Htrue started. unfold result_of in Htrue.
    rewrite DriverFacts.gripper_open_script in Htrue.
    exact (Hsteps "Gripper_open" h Htrue).
  - intros Htrue waited started. unfold result_of in Htrue.
    rewrite gripper_close_after_wait in Htrue. cbn [fst] in Htrue.
    fold waited in Htrue.
    destruct (Hsteps "Gripper_close" (h ++ waited) Htrue) as [Hall (k & Hk & Hidle)].
    split; [exact Hall|]. exists k. split; [exact Hk|].
    unfold started. rewrite app_assoc. exact Hidle.
Qed.

Lemma gripper_success_means_idle_witness :
  result_of (gripper_close busy_desk (spec_helper busy_desk)) [] = Ok true /\
  exists k h', (k < 60)%nat /\
               observes_idle busy_desk (spec_helper busy_desk)
                 (poll_history busy_desk (spec_helper busy_desk) k h').
Proof.
  assert (Htrue : result_of (gripper_close busy_desk (spec_helper busy_desk)) [] = Ok true)
    by (vm_compute; reflexivity).
  split; [exact Htrue|].
  destruct (gripper_success_means_idle busy_desk (spec_helper busy_desk) [])
    as [_ Hclose].
  destruct (Hclose Htrue) as [_ (k & Hk & Hidle)].
  exists k. eexists. split; [exact Hk | exact Hidle].
Defined.

End DriverExtras.
